(** * Orders dashboard ([src/app/orders/page.tsx]): model and properties

    The page is a React component holding five pieces of state
    ([orders], [loading], [editingOrder], [showAddForm], [formState]) and a
    handful of event handlers that talk to a document-store client.  The
    handlers are embedded as computations in a small state / effect-log /
    exception monad; the store client, the browser dialogs and the clock are
    an explicit environment.  JavaScript strings are sequences of UTF-16
    code units. *)

From Stdlib Require Import List NArith Bool String Ascii Lia.
Import ListNotations.

Set Implicit Arguments.
Local Open Scope N_scope.
Local Open Scope list_scope.

(* ===================================================================== *)
(** ** JavaScript strings and the three built-ins the page uses *)
(* ===================================================================== *)

Module JsString.

(** A string value is a finite sequence of 16-bit code units. *)
Definition code_unit := N.
Definition jsstring := list code_unit.

(** Literals of the source, which are all ASCII. *)
Definition js (s : string) : jsstring :=
  List.map N_of_ascii (list_ascii_of_string s).

(** [a === b] on two strings: same code units in the same order. *)
Fixpoint str_eqb (a b : jsstring) : bool :=
  match a, b with
  | [], [] => true
  | x :: a', y :: b' => N.eqb x y && str_eqb a' b'
  | _, _ => false
  end.

(** ToBoolean on a string: only the empty string is falsy. *)
Definition truthy (s : jsstring) : bool :=
  match s with
  | [] => false
  | _ :: _ => true
  end.

(** ECMAScript WhiteSpace and LineTerminator code points; these are what
    [String.prototype.trim] strips. *)
Definition is_white_space (c : code_unit) : bool :=
  (c =? 9) || (c =? 10) || (c =? 11) || (c =? 12) || (c =? 13) ||
  (c =? 32) || (c =? 160) || (c =? 5760) ||
  ((8192 <=? c) && (c <=? 8202)) ||
  (c =? 8232) || (c =? 8233) || (c =? 8239) || (c =? 8287) ||
  (c =? 12288) || (c =? 65279).

Fixpoint trimStart (s : jsstring) : jsstring :=
  match s with
  | [] => []
  | c :: r => if is_white_space c then trimStart r else s
  end.

Definition trimEnd (s : jsstring) : jsstring :=
  rev (trimStart (rev s)).

(** [s.trim()] *)
Definition trim (s : jsstring) : jsstring :=
  trimEnd (trimStart s).

(** The code unit of [","], the separator the page splits on. *)
Definition comma : code_unit := 44.

(** [s.split(sep)] for a separator of one code unit and no limit: the
    substrings between successive occurrences of the separator.  The
    empty string gives one empty piece. *)
Fixpoint split_from (sep : code_unit) (piece_rev : jsstring) (s : jsstring)
  : list jsstring :=
  match s with
  | [] => [rev piece_rev]
  | c :: r =>
      if c =? sep
      then rev piece_rev :: split_from sep [] r
      else split_from sep (c :: piece_rev) r
  end.

Definition split (sep : code_unit) (s : jsstring) : list jsstring :=
  split_from sep [] s.

(** [arr.join(sep)] on an array of strings. *)
Fixpoint join (sep : jsstring) (arr : list jsstring) : jsstring :=
  match arr with
  | [] => []
  | [x] => x
  | x :: rest => x ++ sep ++ join sep rest
  end.

(** Number of occurrences of a code unit in a string. *)
Definition occurrences (c : code_unit) (s : jsstring) : nat :=
  List.length (List.filter (N.eqb c) s).

End JsString.
Import JsString.

(* ===================================================================== *)
(** ** Data model *)
(* ===================================================================== *)

Section DataModel.

(** The JavaScript [number] type.  The page only copies [amount] from one
    record to another, so it is kept abstract. *)
Variable number : Type.

(** [interface Order] *)
Record Order := mkOrder {
  _id : jsstring;
  fullName : jsstring;
  email : jsstring;
  phone : jsstring;
  address : jsstring;
  city : jsstring;
  postalCode : jsstring;
  country : jsstring;
  paymentMethod : jsstring;
  paymentStatus : jsstring;
  amount : number;
  createdAt : jsstring;
  cartItems : list jsstring
}.

(** [type OrderInput]: every key optional, [cartItems] a comma-separated
    text.  [None] is an absent key. *)
Record OrderInput := mkOrderInput {
  in_id : option jsstring;
  in_fullName : option jsstring;
  in_email : option jsstring;
  in_phone : option jsstring;
  in_address : option jsstring;
  in_city : option jsstring;
  in_postalCode : option jsstring;
  in_country : option jsstring;
  in_paymentMethod : option jsstring;
  in_paymentStatus : option jsstring;
  in_amount : option number;
  in_createdAt : option jsstring;
  in_cartItems : option jsstring
}.

(** [{}] *)
Definition empty_form : OrderInput :=
  mkOrderInput None None None None None None None None None None None
               None None.

(** The object [{ ...formState, cartItems: cartItemsArray }] handed to
    [patch(..).set]: the keys of the form, with [cartItems] overridden by
    the array. *)
Record UpdateData := mkUpdateData {
  upd_id : option jsstring;
  upd_fullName : option jsstring;
  upd_email : option jsstring;
  upd_phone : option jsstring;
  upd_address : option jsstring;
  upd_city : option jsstring;
  upd_postalCode : option jsstring;
  upd_country : option jsstring;
  upd_paymentMethod : option jsstring;
  upd_paymentStatus : option jsstring;
  upd_amount : option number;
  upd_createdAt : option jsstring;
  upd_cartItems : list jsstring
}.

(** The object [{ _type: "order", ...formState, cartItems, createdAt }]
    handed to [client.create]. *)
Record CreateDoc := mkCreateDoc {
  doc_type : jsstring;
  doc_id : option jsstring;
  doc_fullName : option jsstring;
  doc_email : option jsstring;
  doc_phone : option jsstring;
  doc_address : option jsstring;
  doc_city : option jsstring;
  doc_postalCode : option jsstring;
  doc_country : option jsstring;
  doc_paymentMethod : option jsstring;
  doc_paymentStatus : option jsstring;
  doc_amount : option number;
  doc_cartItems : list jsstring;
  doc_createdAt : jsstring
}.

(** The component's [useState] cells. *)
Record State := mkState {
  orders : list Order;
  loading : bool;
  editingOrder : option Order;
  showAddForm : bool;
  formState : OrderInput
}.

(** State on first render. *)
Definition initial_state : State :=
  mkState [] false None false empty_form.

(** Outcome of an awaited call: a value, or a rejection. *)
Inductive outcome (A : Type) : Type :=
| Resolved (a : A)
| Rejected.

(** Everything outside the component: the store client, the browser's
    [confirm] dialog, and the system clock with the built-in that renders a
    time value.  [clock k] is the clock's reading, in milliseconds since the
    epoch, [k] instants after the running handler was invoked, and
    [date_instant] is the instant at which the handler evaluates
    [new Date()]. *)
Record Env := mkEnv {
  window_confirm : jsstring -> bool;
  client_fetch : outcome (list Order);
  client_delete : jsstring -> outcome unit;
  client_patch : jsstring -> UpdateData -> outcome Order;
  client_create : CreateDoc -> outcome Order;
  clock : nat -> N;
  date_instant : nat;
  toISOString : N -> jsstring
}.

(** The time value of [new Date()]. *)
Definition Date_now (env : Env) : N := clock env (date_instant env).

(** Observable actions of a handler, in the order they happen. *)
Inductive effect : Type :=
| PreventDefault
| ScrollToTop
| Confirm (msg : jsstring)
| Alert (msg : jsstring)
| ConsoleError
| StoreFetch
| StoreDelete (id : jsstring)
| StorePatch (id : jsstring) (data : UpdateData)
| StoreCreate (doc : CreateDoc).

Definition is_alert (e : effect) : bool :=
  match e with
  | Alert _ => true
  | _ => false
  end.

Definition is_store_call (e : effect) : bool :=
  match e with
  | StoreFetch | StoreDelete _ | StorePatch _ _ | StoreCreate _ => true
  | _ => false
  end.

(* ------------------------------------------------------------------- *)
(** *** The handler monad: state, effect log, exceptions *)
(* ------------------------------------------------------------------- *)

Definition M (A : Type) : Type :=
  State -> outcome A * State * list effect.

Definition ret {A} (a : A) : M A :=
  fun st => (Resolved a, st, []).

Definition bind {A B} (m : M A) (k : A -> M B) : M B :=
  fun st =>
    match m st with
    | (Resolved a, st1, log1) =>
        match k a st1 with
        | (r, st2, log2) => (r, st2, log1 ++ log2)
        end
    | (Rejected _, st1, log1) => (Rejected B, st1, log1)
    end.

(** [try { body } catch (err) { handler }] *)
Definition try_catch {A} (body : M A) (handler : M A) : M A :=
  fun st =>
    match body st with
    | (Resolved a, st1, log1) => (Resolved a, st1, log1)
    | (Rejected _, st1, log1) =>
        match handler st1 with
        | (r, st2, log2) => (r, st2, log1 ++ log2)
        end
    end.

Definition emit (e : effect) : M unit :=
  fun st => (Resolved tt, st, [e]).

(** [await call]: the call is logged and its outcome taken from the
    environment.  The handler then runs on in the same step, so a handler
    built with [await] is the run in which no other event comes between the
    call and its answer; the code after each [await], on whatever state the
    answer finds, is given on its own further down. *)
Definition await {A} (e : effect) (r : outcome A) : M A :=
  fun st => (r, st, [e]).

Definition read {A} (cell : State -> A) : M A :=
  fun st => (Resolved (cell st), st, []).

Definition setOrders (f : list Order -> list Order) : M unit :=
  fun st =>
    (Resolved tt,
     mkState (f (orders st)) (loading st) (editingOrder st)
             (showAddForm st) (formState st),
     []).

Definition setLoading (b : bool) : M unit :=
  fun st =>
    (Resolved tt,
     mkState (orders st) b (editingOrder st) (showAddForm st)
             (formState st),
     []).

Definition setEditingOrder (o : option Order) : M unit :=
  fun st =>
    (Resolved tt,
     mkState (orders st) (loading st) o (showAddForm st) (formState st),
     []).

Definition setShowAddForm (b : bool) : M unit :=
  fun st =>
    (Resolved tt,
     mkState (orders st) (loading st) (editingOrder st) b (formState st),
     []).

Definition setFormState (f : OrderInput) : M unit :=
  fun st =>
    (Resolved tt,
     mkState (orders st) (loading st) (editingOrder st) (showAddForm st) f,
     []).

End DataModel.

Arguments Rejected {A}.
Arguments ret {number A} a.
Arguments read {number A} cell.
Arguments emit {number} e.
Arguments PreventDefault {number}.
Arguments ScrollToTop {number}.
Arguments Confirm {number} msg.
Arguments Alert {number} msg.
Arguments ConsoleError {number}.
Arguments StoreFetch {number}.
Arguments StoreDelete {number} id.
Arguments empty_form {number}.
Arguments initial_state {number}.

Declare Scope handler_scope.
Delimit Scope handler_scope with handler.
Notation "x <- m ;; k" := (bind m (fun x => k))
  (at level 61, m at next level, right associativity) : handler_scope.
Notation "m ;; k" := (bind m (fun _ => k))
  (at level 61, right associativity) : handler_scope.

(* ===================================================================== *)
(** ** The component's handlers *)
(* ===================================================================== *)

Section Handlers.

Variable number : Type.
Variable env : Env number.

Local Open Scope handler_scope.

(** [formState.cartItems ? formState.cartItems.split(",").map((item) =>
    item.trim()) : []], the expression both submit handlers bind to
    [cartItemsArray]. *)
Definition cartItemsArray (formState : OrderInput number) : list jsstring :=
  match in_cartItems formState with
  | Some text =>
      if truthy text
      then List.map (fun item => trim item) (split comma text)
      else []
  | None => []
  end.

(** [fetchOrders] *)
Definition fetchOrders : M number unit :=
  setLoading true ;;
  try_catch
    (data <- await StoreFetch (client_fetch env) ;;
     setOrders (fun _ => data))
    (emit ConsoleError) ;;
  setLoading false.

(** [handleDelete(id)] *)
Definition handleDelete (id : jsstring) : M number unit :=
  let question := js "Are you sure you want to delete this order?" in
  answer <- await (Confirm question)
                  (Resolved (window_confirm env question)) ;;
  if (answer : bool) then
    try_catch
      (await (StoreDelete id) (client_delete env id) ;;
       setOrders
         (fun prev =>
            List.filter (fun order => negb (str_eqb (_id order) id)) prev))
      (emit ConsoleError ;;
       emit (Alert (js "Failed to delete order")))
  else ret tt.

(** [handleEditClick(order)] *)
Definition handleEditClick (order : Order number) : M number unit :=
  setEditingOrder (Some order) ;;
  setFormState
    {| in_id := Some (_id order);
       in_fullName := Some (fullName order);
       in_email := Some (email order);
       in_phone := Some (phone order);
       in_address := Some (address order);
       in_city := Some (city order);
       in_postalCode := Some (postalCode order);
       in_country := Some (country order);
       in_paymentMethod := Some (paymentMethod order);
       in_paymentStatus := Some (paymentStatus order);
       in_amount := Some (amount order);
       in_createdAt := Some (createdAt order);
       in_cartItems := Some (join (js ", ") (cartItems order)) |} ;;
  setShowAddForm false ;;
  emit ScrollToTop.

(** [handleCancel] *)
Definition handleCancel : M number unit :=
  setEditingOrder None ;;
  setShowAddForm false ;;
  setFormState empty_form.

(** [{ ...formState, cartItems: cartItemsArray }] *)
Definition updateData_of (formState : OrderInput number)
           (items : list jsstring) : UpdateData number :=
  {| upd_id := in_id formState;
     upd_fullName := in_fullName formState;
     upd_email := in_email formState;
     upd_phone := in_phone formState;
     upd_address := in_address formState;
     upd_city := in_city formState;
     upd_postalCode := in_postalCode formState;
     upd_country := in_country formState;
     upd_paymentMethod := in_paymentMethod formState;
     upd_paymentStatus := in_paymentStatus formState;
     upd_amount := in_amount formState;
     upd_createdAt := in_createdAt formState;
     upd_cartItems := items |}.

(** The record the handlers rebuild, field by field, from the document
    the store returned. *)
Definition order_of_document (d : Order number) : Order number :=
  {| _id := _id d;
     fullName := fullName d;
     email := email d;
     phone := phone d;
     address := address d;
     city := city d;
     postalCode := postalCode d;
     country := country d;
     paymentMethod := paymentMethod d;
     paymentStatus := paymentStatus d;
     amount := amount d;
     createdAt := createdAt d;
     cartItems := cartItems d |}.

(** [handleUpdate(e)].  [editingOrder] and [formState] are the values the
    handler closed over when it was invoked. *)
Definition handleUpdate : M number unit :=
  emit PreventDefault ;;
  editingOrder <- read (@editingOrder number) ;;
  formState <- read (@formState number) ;;
  match editingOrder with
  | Some edited =>
      if truthy (_id edited) then
        try_catch
          (let items := cartItemsArray formState in
           let updateData := updateData_of formState items in
           updated <- await (StorePatch (_id edited) updateData)
                            (client_patch env (_id edited) updateData) ;;
           let updatedOrder := order_of_document updated in
           setOrders
             (fun prev =>
                List.map
                  (fun ord =>
                     if str_eqb (_id ord) (_id edited)
                     then updatedOrder else ord)
                  prev) ;;
           handleCancel)
          (emit ConsoleError ;;
           emit (Alert (js "Failed to update order")))
      else ret tt
  | None => ret tt
  end.

(** [formState.createdAt || new Date().toISOString()] *)
Definition createdAt_or_now (formState : OrderInput number) : jsstring :=
  match in_createdAt formState with
  | Some s => if truthy s then s else toISOString env (Date_now env)
  | None => toISOString env (Date_now env)
  end.

(** [{ _type: "order", ...formState, cartItems: cartItemsArray,
    createdAt }] *)
Definition createDoc_of (formState : OrderInput number)
           (items : list jsstring) (created : jsstring)
  : CreateDoc number :=
  {| doc_type := js "order";
     doc_id := in_id formState;
     doc_fullName := in_fullName formState;
     doc_email := in_email formState;
     doc_phone := in_phone formState;
     doc_address := in_address formState;
     doc_city := in_city formState;
     doc_postalCode := in_postalCode formState;
     doc_country := in_country formState;
     doc_paymentMethod := in_paymentMethod formState;
     doc_paymentStatus := in_paymentStatus formState;
     doc_amount := in_amount formState;
     doc_cartItems := items;
     doc_createdAt := created |}.

(** [handleAddNew(e)] *)
Definition handleAddNew : M number unit :=
  emit PreventDefault ;;
  formState <- read (@formState number) ;;
  try_catch
    (let items := cartItemsArray formState in
     let created := createdAt_or_now formState in
     let doc := createDoc_of formState items created in
     newOrder <- await (StoreCreate doc) (client_create env doc) ;;
     let addedOrder := order_of_document newOrder in
     setOrders (fun prev => prev ++ [addedOrder]) ;;
     handleCancel)
    (emit ConsoleError ;;
     emit (Alert (js "Failed to create order"))).

(** The [onClick] of the "Add New Order" button. *)
Definition handleAddNewClick : M number unit :=
  setShowAddForm true ;;
  setEditingOrder None ;;
  setFormState empty_form ;;
  emit ScrollToTop.

(** [isEditing] and [isFormOpen] of the render. *)
Definition isEditing (st : State number) : bool :=
  match editingOrder st with
  | Some _ => true
  | None => false
  end.

Definition isFormOpen (st : State number) : bool :=
  isEditing st || showAddForm st.

(** State and log a handler leaves behind. *)
Definition state_after (h : M number unit) (st : State number) : State number :=
  snd (fst (h st)).

Definition log_of (h : M number unit) (st : State number)
  : list (effect number) :=
  snd (h st).

End Handlers.

Arguments cartItemsArray {number} formState.
Arguments handleCancel {number}.
Arguments handleAddNewClick {number}.
Arguments handleEditClick {number} order.
Arguments isEditing {number} st.
Arguments isFormOpen {number} st.

(* ===================================================================== *)
(** ** The page as a transition system *)
(* ===================================================================== *)

(** What the user (or React) can trigger.  [handleFormChange] only calls
    [setFormState] with the previous form and one key rewritten; here it is
    any replacement of the form. *)
Inductive ui_event (number : Type) : Type :=
| Mount
| ClickRefresh
| ClickAddNew
| ClickEdit (order : Order number)
| ClickDelete (id : jsstring)
| ClickCancel
| SubmitUpdate
| SubmitCreate
| ChangeForm (form : OrderInput number).

Arguments Mount {number}.
Arguments ClickRefresh {number}.
Arguments ClickAddNew {number}.
Arguments ClickCancel {number}.
Arguments SubmitUpdate {number}.
Arguments SubmitCreate {number}.
Arguments ClickDelete {number} id.

Definition handler_of {number} (env : Env number) (ev : ui_event number)
  : M number unit :=
  match ev with
  | Mount => fetchOrders env
  | ClickRefresh => fetchOrders env
  | ClickAddNew => handleAddNewClick
  | ClickEdit order => handleEditClick order
  | ClickDelete id => handleDelete env id
  | ClickCancel => handleCancel
  | SubmitUpdate => handleUpdate env
  | SubmitCreate => handleAddNew env
  | ChangeForm form => setFormState form
  end.

(** States the page can be in: the first render, then any sequence of
    events, each against whatever the environment answers at that time. *)
Inductive reachable {number} : State number -> Prop :=
| reach_initial : reachable initial_state
| reach_event (env : Env number) (ev : ui_event number) (st : State number) :
    reachable st -> reachable (state_after (handler_of env ev) st).

(** The create mode and the edit mode are not both active. *)
Definition modes_exclusive {number} (st : State number) : Prop :=
  isEditing st && showAddForm st = false.

(** A string with no leading or trailing white space. *)
Definition is_trimmed (s : jsstring) : Prop := trim s = s.

(** A string in which the separator does not occur. *)
Definition comma_free (s : jsstring) : Prop := ~ In comma s.

(** [item] is [piece] without its surrounding white space: what is cut off
    at either end is white space only, and what is left neither starts nor
    ends with a white-space code unit. *)
Definition trimmed_of (piece item : jsstring) : Prop :=
  exists pre post,
    piece = pre ++ item ++ post /\
    Forall (fun c => is_white_space c = true) pre /\
    Forall (fun c => is_white_space c = true) post /\
    (forall c r, item = c :: r -> is_white_space c = false) /\
    (forall r c, item = r ++ [c] -> is_white_space c = false).

(** The form with only the cart-items text filled in. *)
Definition form_with_cartItems {number} (text : jsstring)
  : OrderInput number :=
  mkOrderInput None None None None None None None None None None None None
               (Some text).

(** A system clock that does not run backwards. *)
Definition monotone_clock (clock : nat -> N) : Prop :=
  forall i j, (i <= j)%nat -> clock i <= clock j.

(* ===================================================================== *)
(** ** Sample data *)
(* ===================================================================== *)

Module Sample.

(** [Date.prototype.toISOString] for a non-negative time value whose year
    has four digits: civil date from the day count, then fixed-width
    fields. *)
Definition digit (n : N) : code_unit := 48 + n mod 10.

Definition pad2 (n : N) : jsstring := [digit (n / 10); digit n].

Definition pad3 (n : N) : jsstring := [digit (n / 100); digit (n / 10); digit n].

Definition pad4 (n : N) : jsstring :=
  [digit (n / 1000); digit (n / 100); digit (n / 10); digit n].

Definition iso_of_ms (t : N) : jsstring :=
  let days := t / 86400000 in
  let ms_of_day := t mod 86400000 in
  let z := days + 719468 in
  let era := z / 146097 in
  let doe := z mod 146097 in
  let yoe := (doe - doe / 1460 + doe / 36524 - doe / 146096) / 365 in
  let doy := doe - (365 * yoe + yoe / 4 - yoe / 100) in
  let mp := (5 * doy + 2) / 153 in
  let d := doy - (153 * mp + 2) / 5 + 1 in
  let m := if mp <? 10 then mp + 3 else mp - 9 in
  let y := yoe + era * 400 + (if m <=? 2 then 1 else 0) in
  pad4 y ++ js "-" ++ pad2 m ++ js "-" ++ pad2 d ++ js "T" ++
  pad2 (ms_of_day / 3600000) ++ js ":" ++
  pad2 (ms_of_day / 60000 mod 60) ++ js ":" ++
  pad2 (ms_of_day / 1000 mod 60) ++ js "." ++
  pad3 (ms_of_day mod 1000) ++ js "Z".

Definition order_with (id : string) (items : list jsstring) : Order N :=
  {| _id := js id;
     fullName := js "Ada Lovelace";
     email := js "ada@example.org";
     phone := js "555-0100";
     address := js "12 Analytical Row";
     city := js "London";
     postalCode := js "N1";
     country := js "UK";
     paymentMethod := js "creditCard";
     paymentStatus := js "paid";
     amount := 42;
     createdAt := js "2024-01-01T10:00:00.000Z";
     cartItems := items |}.

Definition order_a : Order N := order_with "a" [js "A"; js "B"; js "C"].
Definition order_b : Order N := order_with "b" [js "pen"].
Definition order_c : Order N := order_with "c" [].

(** An order with a comma inside an item. *)
Definition order_comma : Order N := order_with "d" [js "A,B"].

(** A second list entry carrying the id of [order_a]. *)
Definition order_a_again : Order N := order_with "a" [js "ink"].

Definition or_empty (o : option jsstring) : jsstring :=
  match o with
  | Some s => s
  | None => []
  end.

(** A store that persists what it is given and answers with the document. *)
Definition persisted (id : jsstring) (data : UpdateData N) : Order N :=
  {| _id := id;
     fullName := or_empty (upd_fullName data);
     email := or_empty (upd_email data);
     phone := or_empty (upd_phone data);
     address := or_empty (upd_address data);
     city := or_empty (upd_city data);
     postalCode := or_empty (upd_postalCode data);
     country := or_empty (upd_country data);
     paymentMethod := or_empty (upd_paymentMethod data);
     paymentStatus := or_empty (upd_paymentStatus data);
     amount := match upd_amount data with Some n => n | None => 0 end;
     createdAt := or_empty (upd_createdAt data);
     cartItems := upd_cartItems data |}.

Definition created (doc : CreateDoc N) : Order N :=
  {| _id := js "fresh-id";
     fullName := or_empty (doc_fullName doc);
     email := or_empty (doc_email doc);
     phone := or_empty (doc_phone doc);
     address := or_empty (doc_address doc);
     city := or_empty (doc_city doc);
     postalCode := or_empty (doc_postalCode doc);
     country := or_empty (doc_country doc);
     paymentMethod := or_empty (doc_paymentMethod doc);
     paymentStatus := or_empty (doc_paymentStatus doc);
     amount := match doc_amount doc with Some n => n | None => 0 end;
     createdAt := doc_createdAt doc;
     cartItems := doc_cartItems doc |}.

(** One millisecond per instant, from 2023-11-14T22:13:20Z on. *)
Definition ticking (k : nat) : N := 1700000000000 + N.of_nat k.

(** The user confirms and every store call succeeds. *)
Definition env_ok : Env N :=
  {| window_confirm := fun _ => true;
     client_fetch := Resolved [order_a; order_b];
     client_delete := fun _ => Resolved tt;
     client_patch := fun id data => Resolved (persisted id data);
     client_create := fun doc => Resolved (created doc);
     clock := ticking;
     date_instant := 3;
     toISOString := iso_of_ms |}.

(** The user declines and every store call is rejected. *)
Definition env_down : Env N :=
  {| window_confirm := fun _ => false;
     client_fetch := Rejected;
     client_delete := fun _ => Rejected;
     client_patch := fun _ _ => Rejected;
     client_create := fun _ => Rejected;
     clock := ticking;
     date_instant := 3;
     toISOString := iso_of_ms |}.

(** The list shows three orders and nothing is being edited. *)
Definition st_list : State N :=
  mkState [order_a; order_b; order_c] false None false empty_form.

(** [order_b] is being edited and its cart-items text was retyped. *)
Definition st_editing : State N :=
  mkState [order_a; order_b; order_c] false (Some order_b) false
          (mkOrderInput (Some (js "b")) (Some (js "Ada Lovelace"))
             (Some (js "ada@example.org")) (Some (js "555-0100"))
             (Some (js "12 Analytical Row")) (Some (js "London"))
             (Some (js "N1")) (Some (js "UK")) (Some (js "creditCard"))
             (Some (js "paid")) (Some 42)
             (Some (js "2024-01-01T10:00")) (Some (js "pen , ink,  paper "))).

(** The create form is open with a cart-items text and no date. *)
Definition st_creating : State N :=
  mkState [order_a] false None true
          (mkOrderInput None (Some (js "Grace Hopper")) None None None None
             None None None None (Some 7) None (Some (js " nib, ,cap"))).

(** The same list entry id twice. *)
Definition st_duplicate_ids : State N :=
  mkState [order_a; order_b; order_a_again] false None false empty_form.

(** The page after it has mounted, "Add New Order" was clicked and then
    the card of [order_a]. *)
Definition st_clicked : State N :=
  state_after (handler_of env_ok (ClickEdit order_a))
    (state_after (handler_of env_ok ClickAddNew)
       (state_after (handler_of env_ok Mount) initial_state)).

End Sample.

(* ===================================================================== *)
(** ** Form input and what the render derives from the state *)
(* ===================================================================== *)

(** The [name] attributes of the form's inputs whose key holds a string:
    seven text inputs, two selects, the date input and the cart-items
    input.  The number input [amount] is not among them: its change event
    puts the input's text under a key that [OrderInput] types as a number.
    None of the inputs is a checkbox, so a change event always carries
    [e.target.value]. *)
Inductive input_name : Type :=
| Name_fullName
| Name_email
| Name_phone
| Name_address
| Name_city
| Name_postalCode
| Name_country
| Name_paymentMethod
| Name_paymentStatus
| Name_createdAt
| Name_cartItems.

(** [{ ...prev, [name]: value }] *)
Definition with_key {number} (name : input_name) (value : jsstring)
           (prev : OrderInput number) : OrderInput number :=
  {| in_id := in_id prev;
     in_fullName :=
       match name with Name_fullName => Some value | _ => in_fullName prev end;
     in_email :=
       match name with Name_email => Some value | _ => in_email prev end;
     in_phone :=
       match name with Name_phone => Some value | _ => in_phone prev end;
     in_address :=
       match name with Name_address => Some value | _ => in_address prev end;
     in_city :=
       match name with Name_city => Some value | _ => in_city prev end;
     in_postalCode :=
       match name with
       | Name_postalCode => Some value
       | _ => in_postalCode prev
       end;
     in_country :=
       match name with Name_country => Some value | _ => in_country prev end;
     in_paymentMethod :=
       match name with
       | Name_paymentMethod => Some value
       | _ => in_paymentMethod prev
       end;
     in_paymentStatus :=
       match name with
       | Name_paymentStatus => Some value
       | _ => in_paymentStatus prev
       end;
     in_amount := in_amount prev;
     in_createdAt :=
       match name with
       | Name_createdAt => Some value
       | _ => in_createdAt prev
       end;
     in_cartItems :=
       match name with
       | Name_cartItems => Some value
       | _ => in_cartItems prev
       end |}.

(** [formState[name]] for one of those names. *)
Definition key_of {number} (name : input_name) (form : OrderInput number)
  : option jsstring :=
  match name with
  | Name_fullName => in_fullName form
  | Name_email => in_email form
  | Name_phone => in_phone form
  | Name_address => in_address form
  | Name_city => in_city form
  | Name_postalCode => in_postalCode form
  | Name_country => in_country form
  | Name_paymentMethod => in_paymentMethod form
  | Name_paymentStatus => in_paymentStatus form
  | Name_createdAt => in_createdAt form
  | Name_cartItems => in_cartItems form
  end.

(** [handleFormChange(e)] for a change of one of those inputs:
    [setFormState((prev) => ({ ...prev, [name]: value }))]. *)
Definition handleFormChange {number} (name : input_name) (value : jsstring)
  : M number unit :=
  fun st => setFormState (with_key name value (formState st)) st.

(** The user edits several inputs, one change event after the other. *)
Definition type_into_form {number}
           (changes : list (input_name * jsstring)) (st : State number)
  : State number :=
  List.fold_left
    (fun s change =>
       state_after (handleFormChange (fst change) (snd change)) s)
    changes st.

(** [onSubmit={isEditing ? handleUpdate : handleAddNew}] *)
Definition onSubmit {number} (env : Env number) (st : State number)
  : M number unit :=
  if isEditing st then handleUpdate env else handleAddNew env.

(** [v || fallback] on an optional string. *)
Definition or_else (v : option jsstring) (fallback : jsstring) : jsstring :=
  match v with
  | Some s => if truthy s then s else fallback
  | None => fallback
  end.

(** [value={formState.paymentMethod || "creditCard"}] *)
Definition value_paymentMethod {number} (st : State number) : jsstring :=
  or_else (in_paymentMethod (formState st)) (js "creditCard").

(** [value={formState.paymentStatus || "paid"}] *)
Definition value_paymentStatus {number} (st : State number) : jsstring :=
  or_else (in_paymentStatus (formState st)) (js "paid").

(** [value={formState.createdAt ? formState.createdAt.substring(0, 16) :
    ""}] *)
Definition value_createdAt {number} (st : State number) : jsstring :=
  match in_createdAt (formState st) with
  | Some s => if truthy s then firstn 16 s else []
  | None => []
  end.

(* ===================================================================== *)
(** ** More sample data *)
(* ===================================================================== *)

Module Scenario.

(** The user confirms, and the store rejects every call. *)
Definition env_refusing : Env N :=
  {| window_confirm := fun _ => true;
     client_fetch := Rejected;
     client_delete := fun _ => Rejected;
     client_patch := fun _ _ => Rejected;
     client_create := fun _ => Rejected;
     clock := Sample.ticking;
     date_instant := 3;
     toISOString := Sample.iso_of_ms |}.

(** The page after it has mounted and "Add New Order" was clicked. *)
Definition st_add_clicked : State N :=
  state_after (handler_of Sample.env_ok ClickAddNew)
    (state_after (handler_of Sample.env_ok Mount) initial_state).

(** [order_b] was being edited when it was deleted from the list. *)
Definition st_edited_order_deleted : State N :=
  state_after (handleDelete Sample.env_ok (js "b")) Sample.st_editing.

(** What the user types into a new-order form, leaving both selects as
    they are shown. *)
Definition typed_order : list (input_name * jsstring) :=
  [ (Name_fullName, js "Grace Hopper");
    (Name_email, js "grace@example.org");
    (Name_cartItems, js "nib");
    (Name_cartItems, js "nib, cap ") ].

(** The create form is open with white space around the typed items. *)
Definition st_creating_spaced : State N :=
  mkState [Sample.order_a] false None true
          (form_with_cartItems (js " nib , ,cap ")).

(** The order the sample store makes of [Sample.st_creating]'s form. *)
Definition order_fresh : Order N :=
  Sample.created
    (createDoc_of (formState Sample.st_creating)
       (cartItemsArray (formState Sample.st_creating))
       (createdAt_or_now Sample.env_ok (formState Sample.st_creating))).

End Scenario.

(* ===================================================================== *)
(** ** The handlers from their [await] on *)
(* ===================================================================== *)

(** An async handler stops at its [await]; what follows runs when the
    store answers, on the component state of that moment, which other
    events may have changed in between.  These are the four continuations:
    the rest of the [try] block when the call resolved, the [catch] block
    when it was rejected. *)

Section Continuations.

Variable number : Type.

Local Open Scope handler_scope.

(** The awaited promise settles; the call itself was logged when it was
    issued. *)
Definition settled {A} (answer : outcome A) : M number A :=
  fun st => (answer, st, []).

(** [fetchOrders] after [await client.fetch(...)]. *)
Definition fetchOrders_resume (answer : outcome (list (Order number)))
  : M number unit :=
  try_catch
    (data <- settled answer ;;
     setOrders (fun _ => data))
    (emit ConsoleError) ;;
  setLoading false.

(** [handleDelete(id)] after [await client.delete(id)]. *)
Definition handleDelete_resume (id : jsstring) (answer : outcome unit)
  : M number unit :=
  try_catch
    (settled answer ;;
     setOrders
       (fun prev =>
          List.filter (fun order => negb (str_eqb (_id order) id)) prev))
    (emit ConsoleError ;;
     emit (Alert (js "Failed to delete order"))).

(** [handleUpdate] after [await client.patch(...).commit()]; [edited] is
    the [editingOrder] the handler closed over when it was invoked. *)
Definition handleUpdate_resume (edited : Order number)
           (answer : outcome (Order number)) : M number unit :=
  try_catch
    (updated <- settled answer ;;
     let updatedOrder := order_of_document updated in
     setOrders
       (fun prev =>
          List.map
            (fun ord =>
               if str_eqb (_id ord) (_id edited) then updatedOrder else ord)
            prev) ;;
     handleCancel)
    (emit ConsoleError ;;
     emit (Alert (js "Failed to update order"))).

(** [handleAddNew] after [await client.create(...)]. *)
Definition handleAddNew_resume (answer : outcome (Order number))
  : M number unit :=
  try_catch
    (newOrder <- settled answer ;;
     let addedOrder := order_of_document newOrder in
     setOrders (fun prev => prev ++ [addedOrder]) ;;
     handleCancel)
    (emit ConsoleError ;;
     emit (Alert (js "Failed to create order"))).

End Continuations.

Arguments fetchOrders_resume {number} answer.
Arguments handleDelete_resume {number} id answer.
Arguments handleUpdate_resume {number} edited answer.
Arguments handleAddNew_resume {number} answer.

(** Unfolds the monad so that a handler applied to a state computes. *)
Ltac run_handler :=
  unfold state_after, log_of, bind, try_catch, emit, await, read, ret,
    setOrders, setLoading, setEditingOrder, setShowAddForm, setFormState;
  cbn [fst snd app orders loading editingOrder showAddForm formState].

(** Closes a side condition on sample data by evaluation. *)
Ltac by_evaluation :=
  first
    [ reflexivity
    | vm_compute; reflexivity
    | let H := fresh in intro H; vm_compute in H; discriminate H ].

(* ===================================================================== *)
(** ** Facts about the string built-ins *)
(* ===================================================================== *)

Section StringFacts.

Lemma str_eqb_eq (a b : jsstring) : str_eqb a b = true <-> a = b.
Proof.
  revert b; induction a as [|x a IH]; intros [|y b]; simpl;
    try (split; [discriminate | discriminate]); try tauto.
  rewrite andb_true_iff, N.eqb_eq, IH.
  split.
  - intros [-> ->]; reflexivity.
  - intros E; injection E; auto.
Qed.

Lemma str_eqb_refl (a : jsstring) : str_eqb a a = true.
Proof. apply str_eqb_eq; reflexivity. Qed.

Lemma str_eqb_neq (a b : jsstring) : str_eqb a b = false <-> a <> b.
Proof.
  rewrite <- str_eqb_eq.
  destruct (str_eqb a b); split; intros; try discriminate; try congruence.
Qed.

(** The piece under construction is only ever prepended to the first piece
    produced by what is left of the string. *)
Lemma split_from_acc (sep : code_unit) (s acc : jsstring) :
  split_from sep acc s =
  match split sep s with
  | p :: ps => (rev acc ++ p) :: ps
  | [] => [rev acc]
  end.
Proof.
  unfold split.
  revert acc; induction s as [|c r IH]; intros acc; simpl.
  - rewrite app_nil_r; reflexivity.
  - destruct (c =? sep).
    + rewrite app_nil_r; reflexivity.
    + rewrite (IH (c :: acc)), (IH [c]).
      destruct (split_from sep [] r) as [|p ps]; simpl.
      * reflexivity.
      * rewrite <- app_assoc; reflexivity.
Qed.

Lemma split_nil (sep : code_unit) : split sep [] = [[]].
Proof. reflexivity. Qed.

Lemma split_cons_sep (sep : code_unit) (s : jsstring) :
  split sep (sep :: s) = [] :: split sep s.
Proof. unfold split; simpl; rewrite N.eqb_refl; reflexivity. Qed.

Lemma split_not_empty (sep : code_unit) (s : jsstring) : split sep s <> [].
Proof.
  induction s as [|c r IH].
  - discriminate.
  - unfold split; simpl.
    destruct (c =? sep); [discriminate|].
    rewrite split_from_acc.
    destruct (split sep r); discriminate.
Qed.

Lemma split_cons_other (sep c : code_unit) (s : jsstring) :
  c <> sep ->
  exists p ps, split sep s = p :: ps /\ split sep (c :: s) = (c :: p) :: ps.
Proof.
  intros Hc.
  destruct (split sep s) as [|p ps] eqn:E.
  - destruct (split_not_empty _ _ E).
  - exists p, ps; split; [reflexivity|].
    unfold split; simpl.
    apply N.eqb_neq in Hc; rewrite Hc.
    rewrite split_from_acc, E; reflexivity.
Qed.

(** A string without the separator is a single piece. *)
Lemma split_without_sep (sep : code_unit) (x : jsstring) :
  ~ In sep x -> split sep x = [x].
Proof.
  induction x as [|c x IH]; intros Hx.
  - reflexivity.
  - assert (Hc : c <> sep) by (intros ->; apply Hx; left; reflexivity).
    destruct (split_cons_other x Hc) as (p & ps & E & ->).
    rewrite IH in E by (intros Hin; apply Hx; right; exact Hin).
    injection E as <- <-; reflexivity.
Qed.

(** The first separator ends the first piece. *)
Lemma split_app_sep (sep : code_unit) (x rest : jsstring) :
  ~ In sep x -> split sep (x ++ sep :: rest) = x :: split sep rest.
Proof.
  induction x as [|c x IH]; intros Hx; simpl.
  - apply split_cons_sep.
  - assert (Hc : c <> sep) by (intros ->; apply Hx; left; reflexivity).
    destruct (split_cons_other (x ++ sep :: rest) Hc) as (p & ps & E & ->).
    rewrite IH in E by (intros Hin; apply Hx; right; exact Hin).
    injection E as <- <-; reflexivity.
Qed.

(** Joining the pieces with the separator gives the string back. *)
Lemma join_split (sep : code_unit) (s : jsstring) :
  join [sep] (split sep s) = s.
Proof.
  induction s as [|c r IH].
  - reflexivity.
  - destruct (N.eq_dec c sep) as [->|Hc].
    + rewrite split_cons_sep.
      destruct (split sep r) as [|p ps] eqn:E.
      * destruct (split_not_empty _ _ E).
      * change (join [sep] ([] :: p :: ps)) with (sep :: join [sep] (p :: ps)).
        rewrite IH; reflexivity.
    + destruct (split_cons_other r Hc) as (p & ps & E & ->).
      rewrite E in IH.
      destruct ps as [|q ps]; simpl in *; rewrite IH; reflexivity.
Qed.

(** No piece contains the separator. *)
Lemma split_pieces_without_sep (sep : code_unit) (s : jsstring) :
  Forall (fun p => ~ In sep p) (split sep s).
Proof.
  induction s as [|c r IH].
  - repeat constructor; intros [].
  - destruct (N.eq_dec c sep) as [->|Hc].
    + rewrite split_cons_sep; constructor; [intros []|exact IH].
    + destruct (split_cons_other r Hc) as (p & ps & E & ->).
      rewrite E in IH; inversion IH as [|? ? Hp Hps]; subst.
      constructor; [|exact Hps].
      intros [->|Hin]; [apply Hc; reflexivity|apply Hp; exact Hin].
Qed.

(** One piece more than there are separators. *)
Lemma split_length (sep : code_unit) (s : jsstring) :
  List.length (split sep s) = S (occurrences sep s).
Proof.
  unfold occurrences.
  induction s as [|c r IH].
  - reflexivity.
  - destruct (N.eq_dec c sep) as [->|Hc].
    + rewrite split_cons_sep; simpl; rewrite N.eqb_refl; simpl.
      rewrite IH; reflexivity.
    + destruct (split_cons_other r Hc) as (p & ps & E & ->).
      rewrite E in IH; simpl in *.
      assert (Hs : (sep =? c) = false) by (apply N.eqb_neq; congruence).
      rewrite Hs; exact IH.
Qed.

Lemma trimStart_white (c : code_unit) (s : jsstring) :
  is_white_space c = true -> trimStart (c :: s) = trimStart s.
Proof. intros H; simpl; rewrite H; reflexivity. Qed.

Lemma trim_white (c : code_unit) (s : jsstring) :
  is_white_space c = true -> trim (c :: s) = trim s.
Proof. intros H; unfold trim; rewrite trimStart_white by exact H; reflexivity. Qed.

(** [trimStart] removes a run of white space from the front and stops at
    the first other code unit. *)
Lemma trimStart_spec (s : jsstring) :
  exists pre,
    s = pre ++ trimStart s /\
    Forall (fun c => is_white_space c = true) pre /\
    (forall c r, trimStart s = c :: r -> is_white_space c = false).
Proof.
  induction s as [|c s (pre & E & Hpre & Hhead)]; simpl.
  - exists []; repeat split; [constructor | discriminate].
  - destruct (is_white_space c) eqn:W.
    + exists (c :: pre); repeat split.
      * simpl; rewrite <- E; reflexivity.
      * constructor; assumption.
      * exact Hhead.
    + exists []; repeat split; [constructor|].
      intros c' r' E'; injection E' as <- <-; exact W.
Qed.

(** [trim] keeps the middle of the string: what it removes is white space
    at both ends, and what it keeps neither starts nor ends with white
    space. *)
Lemma trim_spec (s : jsstring) :
  exists pre post,
    s = pre ++ trim s ++ post /\
    Forall (fun c => is_white_space c = true) pre /\
    Forall (fun c => is_white_space c = true) post /\
    (forall c r, trim s = c :: r -> is_white_space c = false) /\
    (forall r c, trim s = r ++ [c] -> is_white_space c = false).
Proof.
  destruct (trimStart_spec s) as (pre & E & Hpre & Hhead).
  destruct (trimStart_spec (rev (trimStart s))) as (tsop & E' & Hpost & Hlast).
  assert (Emid : trimStart s = trim s ++ rev tsop).
  { unfold trim, trimEnd.
    rewrite <- rev_app_distr, <- E', rev_involutive; reflexivity. }
  exists pre, (rev tsop); repeat split.
  - rewrite <- Emid; exact E.
  - exact Hpre.
  - apply Forall_rev; exact Hpost.
  - intros c r Et.
    rewrite Et in Emid; simpl in Emid.
    apply (Hhead c (r ++ rev tsop)); exact Emid.
  - intros r c Et.
    unfold trim, trimEnd in Et.
    apply (f_equal (@rev _)) in Et.
    rewrite rev_involutive, rev_app_distr in Et; simpl in Et.
    apply (Hlast c (rev r)); exact Et.
Qed.

Lemma join_empty (sep : jsstring) (arr : list jsstring) :
  sep <> [] -> join sep arr = [] -> arr = [] \/ arr = [[]].
Proof.
  intros Hsep E.
  destruct arr as [|x [|y rest]]; simpl in E.
  - left; reflexivity.
  - right; rewrite E; reflexivity.
  - apply app_eq_nil in E as [_ E].
    apply app_eq_nil in E as [E _]; contradiction.
Qed.

(** Text written by [join(", ")] and read back by [split(",")] and [trim]:
    the pieces are the elements, up to their own surrounding white space. *)
Lemma split_trim_join (arr : list jsstring) :
  arr <> [] ->
  Forall comma_free arr ->
  List.map trim (split comma (join (js ", ") arr)) = List.map trim arr.
Proof.
  change (js ", ") with [comma; 32].
  induction arr as [|x arr IH]; intros Hne Hfree; [congruence|].
  inversion Hfree as [|? ? Hx Harr]; subst.
  destruct arr as [|y arr].
  - simpl join; rewrite split_without_sep by exact Hx; reflexivity.
  - change (join [comma; 32] (x :: y :: arr))
      with (x ++ comma :: 32 :: join [comma; 32] (y :: arr)).
    rewrite split_app_sep by exact Hx.
    assert (Hsp : 32 <> comma) by discriminate.
    destruct (split_cons_other (join [comma; 32] (y :: arr)) Hsp)
      as (p & ps & E & E2).
    simpl List.map; f_equal.
    etransitivity; [exact (f_equal (List.map trim) E2)|].
    simpl List.map.
    rewrite trim_white by reflexivity.
    specialize (IH ltac:(discriminate) Harr).
    rewrite E in IH; exact IH.
Qed.

(** Boolean tests for the two conditions on an item sequence. *)
Lemma all_comma_free_check (arr : list jsstring) :
  forallb (fun s => forallb (fun c => negb (c =? comma)) s) arr = true ->
  Forall comma_free arr.
Proof.
  intros H; apply Forall_forall; intros s Hs Hin.
  rewrite forallb_forall in H; specialize (H s Hs).
  rewrite forallb_forall in H; specialize (H comma Hin).
  rewrite N.eqb_refl in H; discriminate.
Qed.

Lemma all_trimmed_check (arr : list jsstring) :
  forallb (fun s => str_eqb (trim s) s) arr = true ->
  Forall is_trimmed arr.
Proof.
  intros H; apply Forall_forall; intros s Hs.
  rewrite forallb_forall in H.
  apply str_eqb_eq, H, Hs.
Qed.

Lemma trimStart_app_white (pre s : jsstring) :
  Forall (fun c => is_white_space c = true) pre ->
  trimStart (pre ++ s) = trimStart s.
Proof.
  induction 1 as [|c pre Hc _ IH]; simpl; [reflexivity|].
  rewrite Hc; exact IH.
Qed.

Lemma trimStart_all_white (s : jsstring) :
  Forall (fun c => is_white_space c = true) s -> trimStart s = [].
Proof.
  intros H; rewrite <- (app_nil_r s).
  rewrite trimStart_app_white by exact H; reflexivity.
Qed.

(** [trim] cuts off the surrounding white space, and nothing else does:
    the description determines the result. *)
Lemma trim_trimmed_of (s : jsstring) : trimmed_of s (trim s).
Proof. exact (trim_spec s). Qed.

Lemma trimmed_of_is_trim (piece item : jsstring) :
  trimmed_of piece item -> item = trim piece.
Proof.
  intros (pre & post & -> & Hpre & Hpost & Hhead & Hlast).
  unfold trim, trimEnd.
  rewrite trimStart_app_white by exact Hpre.
  destruct item as [|c r].
  - simpl; rewrite (trimStart_all_white Hpost).
    reflexivity.
  - simpl; rewrite (Hhead c r eq_refl).
    change (c :: r ++ post) with ((c :: r) ++ post).
    rewrite rev_app_distr.
    rewrite trimStart_app_white by (apply Forall_rev; exact Hpost).
    destruct (rev (c :: r)) as [|d t] eqn:E.
    + apply (f_equal (@rev _)) in E; rewrite rev_involutive in E.
      discriminate E.
    + simpl.
      assert (Hd : is_white_space d = false).
      { apply (Hlast (rev t) d).
        rewrite <- (rev_involutive (c :: r)), E; reflexivity. }
      rewrite Hd, <- E, rev_involutive; reflexivity.
Qed.

Lemma trimmed_of_unique (piece a b : jsstring) :
  trimmed_of piece a -> trimmed_of piece b -> a = b.
Proof.
  intros Ha Hb.
  rewrite (trimmed_of_is_trim Ha), (trimmed_of_is_trim Hb); reflexivity.
Qed.

Lemma map_trim_trimmed_of (pieces : list jsstring) :
  Forall2 trimmed_of pieces (List.map trim pieces).
Proof.
  induction pieces as [|p pieces IH]; simpl; constructor;
    [apply trim_trimmed_of | exact IH].
Qed.

End StringFacts.

(* ===================================================================== *)
(** ** What each handler does to the state and the log *)
(* ===================================================================== *)

Section HandlerRuns.

Variable number : Type.
Variable env : Env number.

Lemma fetchOrders_run (st : State number) :
  fetchOrders env st =
  match client_fetch env with
  | Resolved data =>
      (Resolved tt,
       mkState data false (editingOrder st) (showAddForm st) (formState st),
       [StoreFetch])
  | Rejected =>
      (Resolved tt,
       mkState (orders st) false (editingOrder st) (showAddForm st)
               (formState st),
       [StoreFetch; ConsoleError])
  end.
Proof.
  unfold fetchOrders; run_handler.
  destruct (client_fetch env); reflexivity.
Qed.

Lemma handleDelete_run (id : jsstring) (st : State number) :
  let question := js "Are you sure you want to delete this order?" in
  handleDelete env id st =
  if window_confirm env question then
    match client_delete env id with
    | Resolved _ =>
        (Resolved tt,
         mkState
           (List.filter (fun order => negb (str_eqb (_id order) id))
                        (orders st))
           (loading st) (editingOrder st) (showAddForm st) (formState st),
         [Confirm question; StoreDelete id])
    | Rejected =>
        (Resolved tt, st,
         [Confirm question; StoreDelete id; ConsoleError;
          Alert (js "Failed to delete order")])
    end
  else (Resolved tt, st, [Confirm question]).
Proof.
  intros question; unfold handleDelete; run_handler.
  fold question.
  destruct (window_confirm env question); [|reflexivity].
  destruct (client_delete env id); reflexivity.
Qed.

Lemma handleUpdate_run (st : State number) :
  handleUpdate env st =
  match editingOrder st with
  | Some edited =>
      if truthy (_id edited) then
        let data :=
          updateData_of (formState st) (cartItemsArray (formState st)) in
        match client_patch env (_id edited) data with
        | Resolved updated =>
            (Resolved tt,
             mkState
               (List.map
                  (fun ord =>
                     if str_eqb (_id ord) (_id edited)
                     then order_of_document updated else ord)
                  (orders st))
               (loading st) None false empty_form,
             [PreventDefault; StorePatch (_id edited) data])
        | Rejected =>
            (Resolved tt, st,
             [PreventDefault; StorePatch (_id edited) data; ConsoleError;
              Alert (js "Failed to update order")])
        end
      else (Resolved tt, st, [PreventDefault])
  | None => (Resolved tt, st, [PreventDefault])
  end.
Proof.
  unfold handleUpdate, handleCancel; run_handler.
  destruct (editingOrder st) as [edited|]; [|reflexivity].
  destruct (truthy (_id edited)); [|reflexivity].
  cbv zeta.
  destruct (client_patch env (_id edited) _); reflexivity.
Qed.

Lemma handleAddNew_run (st : State number) :
  let doc :=
    createDoc_of (formState st) (cartItemsArray (formState st))
                 (createdAt_or_now env (formState st)) in
  handleAddNew env st =
  match client_create env doc with
  | Resolved newOrder =>
      (Resolved tt,
       mkState (orders st ++ [order_of_document newOrder]) (loading st) None
               false empty_form,
       [PreventDefault; StoreCreate doc])
  | Rejected =>
      (Resolved tt, st,
       [PreventDefault; StoreCreate doc; ConsoleError;
        Alert (js "Failed to create order")])
  end.
Proof.
  intros doc; unfold handleAddNew, handleCancel; run_handler.
  cbv zeta; fold doc.
  destruct (client_create env doc); reflexivity.
Qed.

Lemma handleEditClick_run (order : Order number) (st : State number) :
  handleEditClick order st =
  (Resolved tt,
   mkState (orders st) (loading st) (Some order) false
     {| in_id := Some (_id order);
        in_fullName := Some (fullName order);
        in_email := Some (email order);
        in_phone := Some (phone order);
        in_address := Some (address order);
        in_city := Some (city order);
        in_postalCode := Some (postalCode order);
        in_country := Some (country order);
        in_paymentMethod := Some (paymentMethod order);
        in_paymentStatus := Some (paymentStatus order);
        in_amount := Some (amount order);
        in_createdAt := Some (createdAt order);
        in_cartItems := Some (join (js ", ") (cartItems order)) |},
   [ScrollToTop]).
Proof. reflexivity. Qed.

Lemma handleCancel_run (st : State number) :
  handleCancel st =
  (Resolved tt, mkState (orders st) (loading st) None false empty_form, []).
Proof. reflexivity. Qed.

Lemma handleAddNewClick_run (st : State number) :
  handleAddNewClick st =
  (Resolved tt, mkState (orders st) (loading st) None true empty_form,
   [ScrollToTop]).
Proof. reflexivity. Qed.

(** The conversion of the cart-items text, by cases on the text. *)
Lemma cartItemsArray_text (form : OrderInput number) (text : jsstring) :
  in_cartItems form = Some text ->
  text <> [] ->
  cartItemsArray form = List.map trim (split comma text).
Proof.
  intros E Hne; unfold cartItemsArray; rewrite E.
  destruct text; [congruence | reflexivity].
Qed.

Lemma cartItemsArray_no_text (form : OrderInput number) :
  in_cartItems form = None \/ in_cartItems form = Some [] ->
  cartItemsArray form = [].
Proof.
  intros [E|E]; unfold cartItemsArray; rewrite E; reflexivity.
Qed.

End HandlerRuns.

(* ===================================================================== *)
(** ** Create *)
(* ===================================================================== *)

(** C1.  A create submission makes exactly one store call, a create whose
    [cartItems] is the form text split on commas with every piece trimmed
    of its surrounding white space, in the order of the text: the pieces
    joined by commas give the text back, none of them contains a comma, and
    the sequence sent holds, position by position, each piece without the
    white space at its two ends (what is cut off is white space only, and
    what is left neither starts nor ends with white space).  When the
    cart-items field is absent or the empty string the sequence sent is
    empty.  When the store answers with the document it persisted, the
    record appended to the local list carries the same sequence. *)
Theorem create_cartItems_split_and_trimmed
  (number : Type) (env : Env number) (st : State number) :
  exists doc : CreateDoc number,
    List.filter (@is_store_call number) (log_of (handleAddNew env) st)
      = [StoreCreate doc] /\
    (forall text,
        in_cartItems (formState st) = Some text -> text <> [] ->
        doc_cartItems doc = List.map trim (split comma text) /\
        join [comma] (split comma text) = text /\
        Forall comma_free (split comma text) /\
        Forall2 trimmed_of (split comma text) (doc_cartItems doc)) /\
    (in_cartItems (formState st) = None \/
     in_cartItems (formState st) = Some [] ->
     doc_cartItems doc = []) /\
    (forall newOrder,
        client_create env doc = Resolved newOrder ->
        cartItems newOrder = doc_cartItems doc ->
        exists added,
          orders (state_after (handleAddNew env) st) = orders st ++ [added] /\
          cartItems added = doc_cartItems doc).
Proof.
  pose proof (handleAddNew_run env st) as Run; cbv zeta in Run.
  set (doc := createDoc_of (formState st) (cartItemsArray (formState st))
                           (createdAt_or_now env (formState st))) in Run.
  exists doc.
  split.
  { unfold log_of; rewrite Run.
    destruct (client_create env doc); reflexivity. }
  split.
  { intros text E Hne.
    assert (Hsent : doc_cartItems doc = List.map trim (split comma text))
      by (apply cartItemsArray_text; assumption).
    split; [exact Hsent|].
    split; [apply join_split|].
    split; [apply split_pieces_without_sep|].
    rewrite Hsent; apply map_trim_trimmed_of. }
  split.
  { apply cartItemsArray_no_text. }
  intros newOrder Hok Hecho.
  exists (order_of_document newOrder); split.
  - unfold state_after; rewrite Run, Hok; reflexivity.
  - exact Hecho.
Qed.

(** C6.  The [createdAt] sent by a create submission is the form's value
    when the form has a non-empty one, and otherwise the rendering of the
    clock's reading at the instant the handler evaluates [new Date()]; on a
    clock that does not run backwards that reading is no earlier than the
    reading at the instant the handler was invoked. *)
Theorem create_createdAt_defaults_to_now
  (number : Type) (env : Env number) (st : State number) :
  monotone_clock (clock env) ->
  exists doc : CreateDoc number,
    List.filter (@is_store_call number) (log_of (handleAddNew env) st)
      = [StoreCreate doc] /\
    (in_createdAt (formState st) = None \/
     in_createdAt (formState st) = Some [] ->
     exists instant,
       doc_createdAt doc = toISOString env (clock env instant) /\
       clock env instant = Date_now env /\
       clock env 0 <= clock env instant) /\
    (forall given,
        in_createdAt (formState st) = Some given -> given <> [] ->
        doc_createdAt doc = given).
Proof.
  intros Hclock.
  pose proof (handleAddNew_run env st) as Run; cbv zeta in Run.
  set (doc := createDoc_of (formState st) (cartItemsArray (formState st))
                           (createdAt_or_now env (formState st))) in Run.
  exists doc; repeat split.
  - unfold log_of; rewrite Run.
    destruct (client_create env doc); reflexivity.
  - intros Hunset.
    exists (date_instant env); repeat split.
    + simpl; unfold createdAt_or_now.
      destruct Hunset as [E|E]; rewrite E; reflexivity.
    + apply Hclock, le_0_n.
  - intros given E Hne.
    simpl; unfold createdAt_or_now; rewrite E.
    destruct given; [congruence | reflexivity].
Qed.

(* ===================================================================== *)
(** ** Edit and update *)
(* ===================================================================== *)

(** C2 (as amended).  Selecting an order for editing puts its [cartItems]
    joined with [", "] into the cart-items field.  When no element contains
    a comma, no element starts or ends with white space, and the sequence is
    not the single empty string, converting that text back gives the
    original sequence, and an update submitted without touching the field
    sends exactly that sequence to the store. *)
Theorem edit_then_update_roundtrip
  (number : Type) (env : Env number) (order : Order number)
  (st : State number) :
  Forall comma_free (cartItems order) ->
  Forall is_trimmed (cartItems order) ->
  cartItems order <> [[]] ->
  in_cartItems (formState (state_after (handleEditClick order) st))
    = Some (join (js ", ") (cartItems order)) /\
  cartItemsArray (formState (state_after (handleEditClick order) st))
    = cartItems order /\
  (_id order <> [] ->
   exists data,
     List.filter (@is_store_call number)
       (log_of (handleUpdate env) (state_after (handleEditClick order) st))
       = [StorePatch (_id order) data] /\
     upd_cartItems data = cartItems order).
Proof.
  intros Hfree Htrim Hnot.
  unfold state_after at 1 2; rewrite handleEditClick_run.
  cbn [fst snd formState in_cartItems].
  assert (Hback :
    cartItemsArray (formState (state_after (handleEditClick order) st))
    = cartItems order).
  { unfold state_after; rewrite handleEditClick_run.
    cbn [fst snd formState].
    unfold cartItemsArray; cbn [in_cartItems].
    destruct (join (js ", ") (cartItems order)) as [|c text] eqn:J.
    - apply join_empty in J; [|discriminate].
      destruct J as [J|J]; [rewrite J; reflexivity | contradiction].
    - cbn [truthy]; rewrite <- J.
      rewrite split_trim_join.
      + clear - Htrim.
        induction Htrim as [|x arr Hx _ IH]; simpl; [reflexivity|].
        rewrite Hx, IH; reflexivity.
      + intros E; rewrite E in J; discriminate.
      + exact Hfree. }
  split; [reflexivity|].
  split.
  - unfold state_after in Hback; rewrite handleEditClick_run in Hback.
    exact Hback.
  - intros Hid.
    set (st' := state_after (handleEditClick order) st) in *.
    exists (updateData_of (formState st') (cartItemsArray (formState st'))).
    split; [|exact Hback].
    unfold log_of; rewrite handleUpdate_run.
    assert (Hed : editingOrder st' = Some order) by reflexivity.
    rewrite Hed.
    destruct (_id order) as [|c id] eqn:Eid; [congruence|].
    cbn [truthy]; cbv zeta.
    destruct (client_patch env (c :: id) _); reflexivity.
Qed.

(** C3.  A successful update leaves the list with the same length; at
    every position, an entry whose id differs from the id of the record
    being edited is the entry that was there, and an entry whose id equals
    it is replaced by the record rebuilt from the store's answer. *)
Theorem update_replaces_by_id_only
  (number : Type) (env : Env number) (st : State number)
  (edited updated : Order number) :
  editingOrder st = Some edited ->
  _id edited <> [] ->
  client_patch env (_id edited)
    (updateData_of (formState st) (cartItemsArray (formState st)))
    = Resolved updated ->
  List.length (orders (state_after (handleUpdate env) st))
    = List.length (orders st) /\
  forall i ord,
    nth_error (orders st) i = Some ord ->
    (_id ord <> _id edited ->
     nth_error (orders (state_after (handleUpdate env) st)) i = Some ord) /\
    (_id ord = _id edited ->
     nth_error (orders (state_after (handleUpdate env) st)) i
       = Some (order_of_document updated)).
Proof.
  intros Hed Hid Hok.
  unfold state_after; rewrite handleUpdate_run, Hed.
  destruct (_id edited) as [|c id] eqn:Eid; [congruence|].
  cbn [truthy]; cbv zeta; rewrite Hok; cbn [fst snd orders].
  split; [apply length_map|].
  intros i ord Hnth.
  rewrite nth_error_map, Hnth; cbn [option_map].
  split; intros Hcmp.
  - apply str_eqb_neq in Hcmp; rewrite Hcmp; reflexivity.
  - apply str_eqb_eq in Hcmp; rewrite Hcmp; reflexivity.
Qed.

(** C5.  When the store rejects the patch, the whole component state is
    what it was at submission: the same order list, the same record being
    edited, the same form values; the failure is logged and alerted. *)
Theorem failed_update_changes_nothing
  (number : Type) (env : Env number) (st : State number)
  (edited : Order number) :
  editingOrder st = Some edited ->
  _id edited <> [] ->
  client_patch env (_id edited)
    (updateData_of (formState st) (cartItemsArray (formState st)))
    = Rejected ->
  state_after (handleUpdate env) st = st /\
  orders (state_after (handleUpdate env) st) = orders st /\
  editingOrder (state_after (handleUpdate env) st) = Some edited /\
  formState (state_after (handleUpdate env) st) = formState st /\
  log_of (handleUpdate env) st
    = [PreventDefault;
       StorePatch (_id edited)
         (updateData_of (formState st) (cartItemsArray (formState st)));
       ConsoleError;
       Alert (js "Failed to update order")].
Proof.
  intros Hed Hid Hfail.
  unfold state_after, log_of; rewrite handleUpdate_run, Hed.
  destruct (_id edited) as [|c id] eqn:Eid; [congruence|].
  cbn [truthy]; cbv zeta; rewrite Hfail; cbn [fst snd].
  repeat split; assumption.
Qed.

(** C9.  Invoked with no record being edited, or with one whose id is the
    empty string, the update handler only cancels the form's default
    submission: no store call, and the component state is untouched. *)
Theorem update_without_target_is_inert
  (number : Type) (env : Env number) (st : State number) :
  (editingOrder st = None \/
   exists edited, editingOrder st = Some edited /\ _id edited = []) ->
  state_after (handleUpdate env) st = st /\
  log_of (handleUpdate env) st = [PreventDefault] /\
  List.filter (@is_store_call number) (log_of (handleUpdate env) st) = [].
Proof.
  intros Hno.
  unfold state_after, log_of; rewrite handleUpdate_run.
  destruct Hno as [E|(edited & E & Eid)]; rewrite E.
  - repeat split.
  - rewrite Eid; repeat split.
Qed.

(* ===================================================================== *)
(** ** Delete *)
(* ===================================================================== *)

Lemma filter_out_unique_id
  (number : Type) (id : jsstring) (l : list (Order number)) :
  NoDup (List.map (@_id number) l) ->
  In id (List.map (@_id number) l) ->
  exists before o behind,
    l = before ++ o :: behind /\
    _id o = id /\
    List.filter (fun order => negb (str_eqb (_id order) id)) l
      = before ++ behind.
Proof.
  induction l as [|x l IH]; intros Hnd Hin; [destruct Hin|].
  simpl in Hnd, Hin; inversion Hnd as [|? ? Hx Hl]; subst.
  destruct (str_eqb (_id x) id) eqn:Ex.
  - apply str_eqb_eq in Ex.
    exists [], x, l; repeat split; [exact Ex|].
    simpl; rewrite (proj2 (str_eqb_eq _ _) Ex); simpl.
    apply forallb_filter_id, forallb_forall.
    intros y Hy.
    apply negb_true_iff, str_eqb_neq.
    intros Ey; apply Hx; rewrite Ex, <- Ey.
    apply in_map; exact Hy.
  - destruct Hin as [Hin|Hin];
      [apply str_eqb_neq in Ex; contradiction|].
    destruct (IH Hl Hin) as (before & o & behind & El & Eo & Ef).
    exists (x :: before), o, behind; repeat split.
    + simpl; rewrite El; reflexivity.
    + exact Eo.
    + simpl; rewrite Ex, Ef; reflexivity.
Qed.

(** C4 (as amended).  A confirmed, successful delete keeps, in order and
    unchanged, exactly the entries whose id differs from the given id, and
    touches nothing else; when the ids in the list are pairwise distinct
    and the given id is one of them, that is the list with exactly one
    entry taken out.  When the user declines, the component state is
    unchanged and the only thing that happened is the prompt. *)
Theorem delete_removes_entries_with_id
  (number : Type) (env : Env number) (id : jsstring) (st : State number) :
  (window_confirm env (js "Are you sure you want to delete this order?")
     = true ->
   client_delete env id = Resolved tt ->
   orders (state_after (handleDelete env id) st)
     = List.filter (fun order => negb (str_eqb (_id order) id)) (orders st) /\
   (forall o,
       In o (orders (state_after (handleDelete env id) st)) <->
       In o (orders st) /\ _id o <> id) /\
   (NoDup (List.map (@_id number) (orders st)) ->
    In id (List.map (@_id number) (orders st)) ->
    exists before o behind,
      orders st = before ++ o :: behind /\
      _id o = id /\
      orders (state_after (handleDelete env id) st) = before ++ behind)) /\
  (window_confirm env (js "Are you sure you want to delete this order?")
     = false ->
   state_after (handleDelete env id) st = st /\
   log_of (handleDelete env id) st
     = [Confirm (js "Are you sure you want to delete this order?")] /\
   List.filter (@is_store_call number) (log_of (handleDelete env id) st)
     = []).
Proof.
  pose proof (handleDelete_run env id st) as Run; cbv zeta in Run.
  unfold state_after, log_of; rewrite Run.
  split.
  - intros Hyes Hok; rewrite Hyes, Hok; cbn [fst snd orders].
    split; [reflexivity|].
    split.
    + intros o; rewrite filter_In, negb_true_iff, str_eqb_neq; reflexivity.
    + apply filter_out_unique_id.
  - intros Hno; rewrite Hno; repeat split.
Qed.

(* ===================================================================== *)
(** ** Fetch *)
(* ===================================================================== *)

(** C7.  When the fetch is rejected the error is logged and nothing else
    happens to the list: it keeps its prior value, as do the edit target,
    the mode flag and the form, and no alert is raised.  When the fetch
    resolves, the fetched array becomes the list. *)
Theorem fetch_failure_keeps_list
  (number : Type) (env : Env number) (st : State number) :
  (client_fetch env = Rejected ->
   orders (state_after (fetchOrders env) st) = orders st /\
   editingOrder (state_after (fetchOrders env) st) = editingOrder st /\
   showAddForm (state_after (fetchOrders env) st) = showAddForm st /\
   formState (state_after (fetchOrders env) st) = formState st /\
   log_of (fetchOrders env) st = [StoreFetch; ConsoleError] /\
   List.filter (@is_alert number) (log_of (fetchOrders env) st) = []) /\
  (forall data,
      client_fetch env = Resolved data ->
      orders (state_after (fetchOrders env) st) = data).
Proof.
  unfold state_after, log_of; rewrite fetchOrders_run.
  split.
  - intros Hfail; rewrite Hfail; repeat split.
  - intros data Hok; rewrite Hok; reflexivity.
Qed.

(* ===================================================================== *)
(** ** Form modes *)
(* ===================================================================== *)

Lemma handler_keeps_modes_exclusive
  (number : Type) (env : Env number) (ev : ui_event number)
  (st : State number) :
  modes_exclusive st -> modes_exclusive (state_after (handler_of env ev) st).
Proof.
  unfold modes_exclusive, state_after; intros Hst.
  destruct ev as [| | |order|id| | | |form]; cbn [handler_of].
  - rewrite fetchOrders_run; destruct (client_fetch env); exact Hst.
  - rewrite fetchOrders_run; destruct (client_fetch env); exact Hst.
  - reflexivity.
  - reflexivity.
  - pose proof (handleDelete_run env id st) as Run; cbv zeta in Run.
    rewrite Run.
    destruct (window_confirm env _); [|exact Hst].
    destruct (client_delete env id); exact Hst.
  - reflexivity.
  - rewrite handleUpdate_run.
    destruct (editingOrder st) as [edited|] eqn:E; [|exact Hst].
    destruct (truthy (_id edited)); [|exact Hst].
    cbv zeta; destruct (client_patch env _ _); [reflexivity | exact Hst].
  - pose proof (handleAddNew_run env st) as Run; cbv zeta in Run.
    rewrite Run.
    destruct (client_create env _); [reflexivity | exact Hst].
  - exact Hst.
Qed.

(** C8.  In every state the page can reach, the create-mode flag and the
    edit mode are not both on.  Selecting an order for editing turns the
    flag off and makes that order the edit target; the "Add New Order"
    button turns the flag on and clears the edit target. *)
Theorem create_and_edit_modes_exclusive (number : Type) :
  (forall st : State number,
      reachable st ->
      ~ (showAddForm st = true /\ editingOrder st <> None)) /\
  (forall (order : Order number) (st : State number),
      showAddForm (state_after (handleEditClick order) st) = false /\
      editingOrder (state_after (handleEditClick order) st) = Some order) /\
  (forall st : State number,
      showAddForm (state_after handleAddNewClick st) = true /\
      editingOrder (state_after handleAddNewClick st) = None).
Proof.
  split; [|split; intros; split; reflexivity].
  intros st Hreach.
  assert (Hex : modes_exclusive st).
  { induction Hreach as [|env ev st _ IH].
    - reflexivity.
    - apply handler_keeps_modes_exclusive; exact IH. }
  unfold modes_exclusive, isEditing in Hex.
  intros [Hshow Hedit].
  rewrite Hshow in Hex.
  destruct (editingOrder st); [discriminate | congruence].
Qed.

(* ===================================================================== *)
(** ** The cart-items conversion *)
(* ===================================================================== *)

(** C10.  On a non-empty text the conversion drops nothing: the sequence it
    yields is the trimmed form, piece by piece, of comma-free pieces that
    joined by commas give the whole text back, and its length is the number
    of commas plus one. *)
Theorem cartItems_one_element_per_piece
  (number : Type) (form : OrderInput number) (text : jsstring) :
  in_cartItems form = Some text ->
  text <> [] ->
  List.length (cartItemsArray form) = (occurrences comma text + 1)%nat /\
  exists pieces,
    join [comma] pieces = text /\
    Forall comma_free pieces /\
    cartItemsArray form = List.map trim pieces.
Proof.
  intros E Hne.
  rewrite (cartItemsArray_text form E Hne).
  split.
  - rewrite length_map, split_length, PeanoNat.Nat.add_1_r; reflexivity.
  - exists (split comma text); repeat split.
    + apply join_split.
    + apply split_pieces_without_sep.
Qed.

(* ===================================================================== *)
(** ** The theorems at concrete inputs *)
(* ===================================================================== *)

Example convert_consecutive_commas :
  cartItemsArray (@form_with_cartItems N (js "A,,B")) = [js "A"; []; js "B"].
Proof. reflexivity. Qed.

Example convert_trailing_comma :
  cartItemsArray (@form_with_cartItems N (js "A,")) = [js "A"; []].
Proof. reflexivity. Qed.

Example convert_blank_text :
  cartItemsArray (@form_with_cartItems N (js " ")) = [[]].
Proof. reflexivity. Qed.

Example edit_fills_cart_items_text :
  in_cartItems
    (formState (state_after (handleEditClick Sample.order_a) Sample.st_list))
  = Some (js "A, B, C").
Proof. reflexivity. Qed.

Lemma create_cartItems_split_and_trimmed_witness :
  in_cartItems (formState Scenario.st_creating_spaced)
    = Some (js " nib , ,cap ") /\
  exists doc : CreateDoc N,
    List.filter (@is_store_call N)
      (log_of (handleAddNew Sample.env_ok) Scenario.st_creating_spaced)
      = [StoreCreate doc] /\
    doc_cartItems doc = [js "nib"; []; js "cap"] /\
    Forall2 trimmed_of [js " nib "; js " "; js "cap "] (doc_cartItems doc) /\
    exists added,
      orders
        (state_after (handleAddNew Sample.env_ok) Scenario.st_creating_spaced)
        = [Sample.order_a; added] /\
      cartItems added = [js "nib"; []; js "cap"].
Proof.
  split; [reflexivity|].
  destruct (create_cartItems_split_and_trimmed Sample.env_ok
              Scenario.st_creating_spaced)
    as (doc & Hlog & Htext & _ & Hkept).
  exists doc.
  destruct (Htext (js " nib , ,cap ")) as (Hsent & _ & _ & Hcut);
    [by_evaluation..|].
  split; [exact Hlog|].
  split; [exact Hsent|].
  split; [exact Hcut|].
  assert (Hl : [StoreCreate doc]
               = [StoreCreate
                    (createDoc_of (formState Scenario.st_creating_spaced)
                       (cartItemsArray
                          (formState Scenario.st_creating_spaced))
                       (createdAt_or_now Sample.env_ok
                          (formState Scenario.st_creating_spaced)))])
    by (rewrite <- Hlog; reflexivity).
  injection Hl as Hdoc.
  destruct (Hkept (Sample.created doc)) as (added & Horders & Hitems).
  - rewrite Hdoc; reflexivity.
  - reflexivity.
  - exists added; split; [exact Horders|].
    rewrite Hitems; exact Hsent.
Defined.

Lemma sample_clock_monotone : monotone_clock Sample.ticking.
Proof.
  intros i j Hij; unfold Sample.ticking.
  apply N.add_le_mono_l; lia.
Qed.

Lemma create_createdAt_defaults_to_now_witness :
  exists doc : CreateDoc N,
    List.filter (@is_store_call N)
      (log_of (handleAddNew Sample.env_ok) Sample.st_creating)
      = [StoreCreate doc] /\
    doc_createdAt doc = js "2023-11-14T22:13:20.003Z".
Proof.
  destruct (create_createdAt_defaults_to_now Sample.env_ok Sample.st_creating
              sample_clock_monotone)
    as (doc & Hlog & Hnow & _).
  exists doc; split; [exact Hlog|].
  destruct Hnow as (instant & Hsent & Hinstant & _); [left; reflexivity|].
  rewrite Hsent, Hinstant; reflexivity.
Defined.

Lemma edit_then_update_roundtrip_witness :
  in_cartItems
    (formState (state_after (handleEditClick Sample.order_a) Sample.st_list))
    = Some (js "A, B, C") /\
  cartItemsArray
    (formState (state_after (handleEditClick Sample.order_a) Sample.st_list))
    = [js "A"; js "B"; js "C"].
Proof.
  destruct (@edit_then_update_roundtrip N Sample.env_ok Sample.order_a
              Sample.st_list)
    as (Htext & Hback & _).
  - apply all_comma_free_check; reflexivity.
  - apply all_trimmed_check; reflexivity.
  - by_evaluation.
  - split; [exact Htext | exact Hback].
Defined.

(** C2, as stated, fails: an item with a comma inside comes back as two
    items. *)
Lemma edit_then_update_roundtrip_counterexample :
  cartItems Sample.order_comma = [js "A,B"] /\
  in_cartItems
    (formState
       (state_after (handleEditClick Sample.order_comma) Sample.st_list))
    = Some (js "A,B") /\
  cartItemsArray
    (formState
       (state_after (handleEditClick Sample.order_comma) Sample.st_list))
    = [js "A"; js "B"] /\
  cartItemsArray
    (formState
       (state_after (handleEditClick Sample.order_comma) Sample.st_list))
    <> cartItems Sample.order_comma.
Proof.
  repeat split; by_evaluation.
Qed.

Example roundtrip_strips_outer_space :
  cartItemsArray
    (formState
       (state_after
          (handleEditClick (Sample.order_with "e" [js " A"])) Sample.st_list))
  = [js "A"].
Proof. reflexivity. Qed.

Example roundtrip_loses_single_empty_item :
  cartItemsArray
    (formState
       (state_after
          (handleEditClick (Sample.order_with "f" [[]])) Sample.st_list))
  = [].
Proof. reflexivity. Qed.

Lemma update_replaces_by_id_only_witness :
  List.map (@cartItems N)
    (orders (state_after (handleUpdate Sample.env_ok) Sample.st_editing))
  = [ [js "A"; js "B"; js "C"]; [js "pen"; js "ink"; js "paper"]; [] ] /\
  nth_error
    (orders (state_after (handleUpdate Sample.env_ok) Sample.st_editing)) 0
  = Some Sample.order_a /\
  nth_error
    (orders (state_after (handleUpdate Sample.env_ok) Sample.st_editing)) 2
  = Some Sample.order_c.
Proof.
  destruct (@update_replaces_by_id_only N Sample.env_ok Sample.st_editing
              Sample.order_b
              (Sample.persisted (js "b")
                 (updateData_of (formState Sample.st_editing)
                    (cartItemsArray (formState Sample.st_editing)))))
    as (_ & Hnth); [by_evaluation..|].
  split; [reflexivity|].
  split.
  - apply (Hnth 0%nat Sample.order_a); by_evaluation.
  - apply (Hnth 2%nat Sample.order_c); by_evaluation.
Defined.

Lemma failed_update_changes_nothing_witness :
  state_after (handleUpdate Sample.env_down) Sample.st_editing
    = Sample.st_editing /\
  editingOrder (state_after (handleUpdate Sample.env_down) Sample.st_editing)
    = Some Sample.order_b /\
  in_cartItems
    (formState (state_after (handleUpdate Sample.env_down) Sample.st_editing))
    = Some (js "pen , ink,  paper ").
Proof.
  destruct (@failed_update_changes_nothing N Sample.env_down Sample.st_editing
              Sample.order_b)
    as (Hsame & _ & Hedit & Hform & _); [by_evaluation..|].
  split; [exact Hsame|].
  split; [exact Hedit|].
  rewrite Hform; reflexivity.
Defined.

Lemma update_without_target_is_inert_witness :
  state_after (handleUpdate Sample.env_ok) Sample.st_list = Sample.st_list /\
  log_of (handleUpdate Sample.env_ok) Sample.st_list = [PreventDefault].
Proof.
  destruct (@update_without_target_is_inert N Sample.env_ok Sample.st_list)
    as (Hsame & Hlog & _).
  - left; reflexivity.
  - split; [exact Hsame | exact Hlog].
Defined.

Lemma delete_removes_entries_with_id_witness :
  orders (state_after (handleDelete Sample.env_ok (js "b")) Sample.st_list)
    = [Sample.order_a; Sample.order_c] /\
  state_after (handleDelete Sample.env_down (js "b")) Sample.st_list
    = Sample.st_list /\
  List.filter (@is_store_call N)
    (log_of (handleDelete Sample.env_down (js "b")) Sample.st_list) = [].
Proof.
  destruct (@delete_removes_entries_with_id N Sample.env_ok (js "b")
              Sample.st_list) as (Hyes & _).
  destruct (@delete_removes_entries_with_id N Sample.env_down (js "b")
              Sample.st_list) as (_ & Hno).
  destruct Hyes as (Hfilter & _ & _); [by_evaluation..|].
  destruct Hno as (Hsame & _ & Hcalls); [by_evaluation|].
  split; [rewrite Hfilter; reflexivity|].
  split; [exact Hsame | exact Hcalls].
Defined.

(** C4, as stated, fails: with the given id on two entries of the list, a
    confirmed, successful delete takes both out. *)
Lemma delete_exactly_one_counterexample :
  In (js "a") (List.map (@_id N) (orders Sample.st_duplicate_ids)) /\
  List.length (orders Sample.st_duplicate_ids) = 3%nat /\
  window_confirm Sample.env_ok
    (js "Are you sure you want to delete this order?") = true /\
  client_delete Sample.env_ok (js "a") = Resolved tt /\
  orders
    (state_after (handleDelete Sample.env_ok (js "a"))
       Sample.st_duplicate_ids)
    = [Sample.order_b] /\
  List.length
    (orders
       (state_after (handleDelete Sample.env_ok (js "a"))
          Sample.st_duplicate_ids))
    <> (3 - 1)%nat.
Proof.
  split; [left; reflexivity|].
  repeat split; by_evaluation.
Qed.

Lemma fetch_failure_keeps_list_witness :
  orders (state_after (fetchOrders Sample.env_down) Sample.st_list)
    = [Sample.order_a; Sample.order_b; Sample.order_c] /\
  log_of (fetchOrders Sample.env_down) Sample.st_list
    = [StoreFetch; ConsoleError] /\
  orders (state_after (fetchOrders Sample.env_ok) Sample.st_list)
    = [Sample.order_a; Sample.order_b].
Proof.
  destruct (@fetch_failure_keeps_list N Sample.env_down Sample.st_list)
    as (Hfail & _).
  destruct (@fetch_failure_keeps_list N Sample.env_ok Sample.st_list)
    as (_ & Hok).
  destruct Hfail as (Hsame & _ & _ & _ & Hlog & _); [reflexivity|].
  split; [rewrite Hsame; reflexivity|].
  split; [exact Hlog|].
  apply Hok; reflexivity.
Defined.

Lemma sample_clicked_reachable : reachable Sample.st_clicked.
Proof.
  unfold Sample.st_clicked.
  repeat apply reach_event; apply reach_initial.
Qed.

Lemma create_and_edit_modes_exclusive_witness :
  ~ (showAddForm Sample.st_clicked = true /\
     editingOrder Sample.st_clicked <> None).
Proof.
  exact (proj1 (create_and_edit_modes_exclusive N) Sample.st_clicked
               sample_clicked_reachable).
Defined.

Lemma cartItems_one_element_per_piece_witness :
  List.length (cartItemsArray (@form_with_cartItems N (js "A,,B"))) = 3%nat.
Proof.
  destruct (@cartItems_one_element_per_piece N
              (form_with_cartItems (js "A,,B")) (js "A,,B"))
    as (Hlen & _); [by_evaluation..|].
  rewrite Hlen; reflexivity.
Defined.

(* ===================================================================== *)
(** ** Further properties: create and delete *)
(* ===================================================================== *)

Lemma state_eta (number : Type) (st : State number) :
  mkState (orders st) (loading st) (editingOrder st) (showAddForm st)
          (formState st) = st.
Proof. destruct st; reflexivity. Qed.

(** X1.  When the store rejects the create, the component state is what it
    was at submission, so the form stays open with what was typed; the
    failure is logged and alerted. *)
Theorem failed_create_changes_nothing
  (number : Type) (env : Env number) (st : State number) :
  client_create env
    (createDoc_of (formState st) (cartItemsArray (formState st))
                  (createdAt_or_now env (formState st)))
    = Rejected ->
  state_after (handleAddNew env) st = st /\
  log_of (handleAddNew env) st
    = [PreventDefault;
       StoreCreate
         (createDoc_of (formState st) (cartItemsArray (formState st))
                       (createdAt_or_now env (formState st)));
       ConsoleError;
       Alert (js "Failed to create order")].
Proof.
  intros Hfail.
  pose proof (handleAddNew_run env st) as Run; cbv zeta in Run.
  unfold state_after, log_of; rewrite Run, Hfail.
  split; reflexivity.
Qed.

(** X2.  When the store resolves the create, the record rebuilt from its
    answer goes to the end of the list: every earlier position keeps its
    entry and the list is one longer.  The form is closed and emptied, and
    nothing is alerted. *)
Theorem successful_create_appends_and_closes_form
  (number : Type) (env : Env number) (st : State number)
  (newOrder : Order number) :
  client_create env
    (createDoc_of (formState st) (cartItemsArray (formState st))
                  (createdAt_or_now env (formState st)))
    = Resolved newOrder ->
  orders (state_after (handleAddNew env) st)
    = orders st ++ [order_of_document newOrder] /\
  List.length (orders (state_after (handleAddNew env) st))
    = S (List.length (orders st)) /\
  (forall i ord,
      nth_error (orders st) i = Some ord ->
      nth_error (orders (state_after (handleAddNew env) st)) i = Some ord) /\
  isFormOpen (state_after (handleAddNew env) st) = false /\
  formState (state_after (handleAddNew env) st) = empty_form /\
  List.filter (@is_alert number) (log_of (handleAddNew env) st) = [].
Proof.
  intros Hok.
  pose proof (handleAddNew_run env st) as Run; cbv zeta in Run.
  unfold state_after, log_of; rewrite Run, Hok; cbn [fst snd orders].
  repeat split.
  - rewrite length_app; simpl; lia.
  - intros i ord Hnth.
    rewrite nth_error_app1; [exact Hnth|].
    apply nth_error_Some; congruence.
Qed.

(** X3.  When the user confirms and the store rejects the delete, the
    component state is unchanged, the entry stays in the list, and the
    failure is logged and alerted. *)
Theorem failed_delete_changes_nothing
  (number : Type) (env : Env number) (id : jsstring) (st : State number) :
  window_confirm env (js "Are you sure you want to delete this order?")
    = true ->
  client_delete env id = Rejected ->
  state_after (handleDelete env id) st = st /\
  log_of (handleDelete env id) st
    = [Confirm (js "Are you sure you want to delete this order?");
       StoreDelete id;
       ConsoleError;
       Alert (js "Failed to delete order")].
Proof.
  intros Hyes Hfail.
  pose proof (handleDelete_run env id st) as Run; cbv zeta in Run.
  unfold state_after, log_of; rewrite Run, Hyes, Hfail.
  split; reflexivity.
Qed.

Lemma filter_out_id_absent
  (number : Type) (id : jsstring) (l : list (Order number)) :
  ~ In id (List.map (@_id number) l) ->
  List.filter (fun order => negb (str_eqb (_id order) id)) l = l.
Proof.
  intros Hno.
  apply forallb_filter_id, forallb_forall.
  intros o Ho.
  apply negb_true_iff, str_eqb_neq.
  intros E; apply Hno; rewrite <- E.
  apply in_map; exact Ho.
Qed.

Lemma filter_out_id_leaves_none
  (number : Type) (id : jsstring) (l : list (Order number)) :
  ~ In id
      (List.map (@_id number)
         (List.filter (fun order => negb (str_eqb (_id order) id)) l)).
Proof.
  intros Hin.
  apply in_map_iff in Hin as (o & Eo & Ho).
  apply filter_In in Ho as (_ & Hkeep).
  apply negb_true_iff, str_eqb_neq in Hkeep; contradiction.
Qed.

(** X4.  After a confirmed, successful delete no entry of the list has the
    given id and the list has not grown; deleting the same id once more
    changes nothing further. *)
Theorem delete_leaves_no_entry_with_id
  (number : Type) (env : Env number) (id : jsstring) (st : State number) :
  window_confirm env (js "Are you sure you want to delete this order?")
    = true ->
  client_delete env id = Resolved tt ->
  ~ In id
      (List.map (@_id number) (orders (state_after (handleDelete env id) st)))
  /\
  (List.length (orders (state_after (handleDelete env id) st))
   <= List.length (orders st))%nat /\
  state_after (handleDelete env id) (state_after (handleDelete env id) st)
    = state_after (handleDelete env id) st.
Proof.
  intros Hyes Hok.
  pose proof (fun s => handleDelete_run env id s) as Run; cbv zeta in Run.
  unfold state_after; rewrite !Run, Hyes, Hok; cbn [fst snd orders].
  repeat split.
  - apply filter_out_id_leaves_none.
  - apply filter_length_le.
  - cbn [loading editingOrder showAddForm formState].
    rewrite (@filter_out_id_absent number id _
               (@filter_out_id_leaves_none number id _)).
    reflexivity.
Qed.

(** X5.  A confirmed, successful delete of an id that no entry carries
    still calls the store, and leaves the component state exactly as it
    was. *)
Theorem delete_of_absent_id_changes_nothing
  (number : Type) (env : Env number) (id : jsstring) (st : State number) :
  window_confirm env (js "Are you sure you want to delete this order?")
    = true ->
  client_delete env id = Resolved tt ->
  ~ In id (List.map (@_id number) (orders st)) ->
  state_after (handleDelete env id) st = st /\
  List.filter (@is_store_call number) (log_of (handleDelete env id) st)
    = [StoreDelete id].
Proof.
  intros Hyes Hok Habsent.
  pose proof (handleDelete_run env id st) as Run; cbv zeta in Run.
  unfold state_after, log_of; rewrite Run, Hyes, Hok; cbn [fst snd].
  split; [|reflexivity].
  rewrite (@filter_out_id_absent number id _ Habsent).
  apply state_eta.
Qed.

Lemma filter_filter_swap (A : Type) (p q : A -> bool) (l : list A) :
  List.filter p (List.filter q l) = List.filter q (List.filter p l).
Proof.
  induction l as [|x l IH]; simpl; [reflexivity|].
  destruct (p x) eqn:Hp, (q x) eqn:Hq; simpl;
    rewrite ?Hp, ?Hq, IH; reflexivity.
Qed.

(** X6.  Two confirmed, successful deletes give the same component state in
    either order. *)
Theorem deletes_commute
  (number : Type) (env : Env number) (id1 id2 : jsstring)
  (st : State number) :
  window_confirm env (js "Are you sure you want to delete this order?")
    = true ->
  client_delete env id1 = Resolved tt ->
  client_delete env id2 = Resolved tt ->
  state_after (handleDelete env id2) (state_after (handleDelete env id1) st)
  = state_after (handleDelete env id1) (state_after (handleDelete env id2) st).
Proof.
  intros Hyes Hok1 Hok2.
  pose proof (fun i s => handleDelete_run env i s) as Run; cbv zeta in Run.
  unfold state_after; rewrite !Run, Hyes, Hok1, Hok2.
  cbn [fst snd orders loading editingOrder showAddForm formState].
  rewrite filter_filter_swap; reflexivity.
Qed.

(** X7.  Whatever the user answers and whatever the store does, a delete
    touches only the order list: the record being edited, the mode flag,
    the form values and the loading flag are what they were, also when the
    order deleted is the one being edited. *)
Theorem delete_keeps_edit_session
  (number : Type) (env : Env number) (id : jsstring) (st : State number) :
  editingOrder (state_after (handleDelete env id) st) = editingOrder st /\
  showAddForm (state_after (handleDelete env id) st) = showAddForm st /\
  formState (state_after (handleDelete env id) st) = formState st /\
  loading (state_after (handleDelete env id) st) = loading st.
Proof.
  pose proof (handleDelete_run env id st) as Run; cbv zeta in Run.
  unfold state_after; rewrite Run.
  destruct (window_confirm env _); [|repeat split].
  destruct (client_delete env id); repeat split.
Qed.

(* ===================================================================== *)
(** ** Further properties: edit, update, cancel and fetch *)
(* ===================================================================== *)

Lemma replace_by_id_absent
  (number : Type) (id : jsstring) (replacement : Order number)
  (l : list (Order number)) :
  ~ In id (List.map (@_id number) l) ->
  List.map
    (fun ord => if str_eqb (_id ord) id then replacement else ord) l
  = l.
Proof.
  induction l as [|x l IH]; intros Hno; simpl; [reflexivity|].
  simpl in Hno.
  rewrite IH by tauto.
  destruct (str_eqb (_id x) id) eqn:E; [|reflexivity].
  apply str_eqb_eq in E; tauto.
Qed.

Lemma replace_by_id_keeps_ids
  (number : Type) (id : jsstring) (replacement : Order number)
  (l : list (Order number)) :
  _id replacement = id ->
  List.map (@_id number)
    (List.map
       (fun ord => if str_eqb (_id ord) id then replacement else ord) l)
  = List.map (@_id number) l.
Proof.
  intros Hid.
  rewrite map_map; apply map_ext; intros ord.
  destruct (str_eqb (_id ord) id) eqn:E; [|reflexivity].
  apply str_eqb_eq in E; congruence.
Qed.

(** X8.  An update submitted for a record that is no longer in the list
    (its id is carried by no entry) still sends the patch; when the store
    resolves it, no entry of the list changes, and the form is closed. *)
Theorem update_of_missing_order_changes_no_entry
  (number : Type) (env : Env number) (st : State number)
  (edited updated : Order number) :
  editingOrder st = Some edited ->
  _id edited <> [] ->
  client_patch env (_id edited)
    (updateData_of (formState st) (cartItemsArray (formState st)))
    = Resolved updated ->
  ~ In (_id edited) (List.map (@_id number) (orders st)) ->
  orders (state_after (handleUpdate env) st) = orders st /\
  isFormOpen (state_after (handleUpdate env) st) = false /\
  List.filter (@is_store_call number) (log_of (handleUpdate env) st)
    = [StorePatch (_id edited)
         (updateData_of (formState st) (cartItemsArray (formState st)))].
Proof.
  intros Hed Hid Hok Habsent.
  unfold state_after, log_of; rewrite handleUpdate_run, Hed.
  destruct (_id edited) as [|c id] eqn:Eid; [congruence|].
  cbn [truthy]; cbv zeta; rewrite Hok; cbn [fst snd orders].
  repeat split.
  apply replace_by_id_absent; exact Habsent.
Qed.

(** X9.  A successful update ends the edit session: no record is being
    edited, the create flag is off, the form is empty, the loading flag is
    untouched, and the only effects are the cancelled default submission
    and the patch. *)
Theorem successful_update_closes_form
  (number : Type) (env : Env number) (st : State number)
  (edited updated : Order number) :
  editingOrder st = Some edited ->
  _id edited <> [] ->
  client_patch env (_id edited)
    (updateData_of (formState st) (cartItemsArray (formState st)))
    = Resolved updated ->
  editingOrder (state_after (handleUpdate env) st) = None /\
  showAddForm (state_after (handleUpdate env) st) = false /\
  formState (state_after (handleUpdate env) st) = empty_form /\
  loading (state_after (handleUpdate env) st) = loading st /\
  log_of (handleUpdate env) st
    = [PreventDefault;
       StorePatch (_id edited)
         (updateData_of (formState st) (cartItemsArray (formState st)))].
Proof.
  intros Hed Hid Hok.
  unfold state_after, log_of; rewrite handleUpdate_run, Hed.
  destruct (_id edited) as [|c id] eqn:Eid; [congruence|].
  cbn [truthy]; cbv zeta; rewrite Hok.
  repeat split.
Qed.

(** X10.  When the store answers a patch with a document carrying the id
    that was patched, a successful update leaves the sequence of ids in
    the list as it was. *)
Theorem update_keeps_ids_when_store_keeps_id
  (number : Type) (env : Env number) (st : State number)
  (edited updated : Order number) :
  editingOrder st = Some edited ->
  _id edited <> [] ->
  client_patch env (_id edited)
    (updateData_of (formState st) (cartItemsArray (formState st)))
    = Resolved updated ->
  _id updated = _id edited ->
  List.map (@_id number) (orders (state_after (handleUpdate env) st))
    = List.map (@_id number) (orders st).
Proof.
  intros Hed Hid Hok Hsame.
  unfold state_after; rewrite handleUpdate_run, Hed.
  destruct (_id edited) as [|c id] eqn:Eid; [congruence|].
  cbn [truthy]; cbv zeta; rewrite Hok; cbn [fst snd orders].
  apply replace_by_id_keeps_ids; exact Hsame.
Qed.

(** X11.  Selecting an order and submitting at once patches that order's
    id with the order's own values under every scalar key, whatever the
    form held before; [createdAt] goes back in full although the date
    input shows only its first sixteen code units. *)
Theorem unmodified_edit_submits_order_values
  (number : Type) (env : Env number) (order : Order number)
  (st : State number) :
  _id order <> [] ->
  value_createdAt (state_after (handleEditClick order) st)
    = firstn 16 (createdAt order) /\
  exists data,
    List.filter (@is_store_call number)
      (log_of (handleUpdate env) (state_after (handleEditClick order) st))
      = [StorePatch (_id order) data] /\
    upd_id data = Some (_id order) /\
    upd_fullName data = Some (fullName order) /\
    upd_email data = Some (email order) /\
    upd_phone data = Some (phone order) /\
    upd_address data = Some (address order) /\
    upd_city data = Some (city order) /\
    upd_postalCode data = Some (postalCode order) /\
    upd_country data = Some (country order) /\
    upd_paymentMethod data = Some (paymentMethod order) /\
    upd_paymentStatus data = Some (paymentStatus order) /\
    upd_amount data = Some (amount order) /\
    upd_createdAt data = Some (createdAt order).
Proof.
  intros Hid.
  set (st' := state_after (handleEditClick order) st).
  split.
  - unfold value_createdAt; subst st'.
    unfold state_after; rewrite handleEditClick_run.
    cbn [fst snd formState in_createdAt].
    destruct (createdAt order); reflexivity.
  - exists (updateData_of (formState st') (cartItemsArray (formState st'))).
    split; [|repeat split].
    unfold log_of; rewrite handleUpdate_run.
    assert (Hed : editingOrder st' = Some order) by reflexivity.
    rewrite Hed.
    destruct (_id order) as [|c id] eqn:Eid; [congruence|].
    cbn [truthy]; cbv zeta.
    destruct (client_patch env (c :: id) _); reflexivity.
Qed.

(** X12.  From the plain list view (nothing being edited, create flag off,
    empty form), opening the form either way and cancelling brings the
    component state back to exactly what it was. *)
Theorem cancel_undoes_opening_the_form
  (number : Type) (order : Order number) (st : State number) :
  editingOrder st = None ->
  showAddForm st = false ->
  formState st = empty_form ->
  state_after handleCancel (state_after (handleEditClick order) st) = st /\
  state_after handleCancel (state_after handleAddNewClick st) = st.
Proof.
  intros Hed Hflag Hform.
  unfold state_after.
  rewrite handleEditClick_run, handleAddNewClick_run, !handleCancel_run.
  cbn [fst snd orders loading].
  rewrite <- Hed, <- Hflag, <- Hform.
  split; apply state_eta.
Qed.

(** X15.  Whether the fetch resolves or is rejected, the loading flag is
    off when [fetchOrders] is done, the edit target, the mode flag and the
    form are untouched, the store was called once, and nothing is
    alerted. *)
Theorem fetch_clears_loading_and_keeps_form
  (number : Type) (env : Env number) (st : State number) :
  loading (state_after (fetchOrders env) st) = false /\
  editingOrder (state_after (fetchOrders env) st) = editingOrder st /\
  showAddForm (state_after (fetchOrders env) st) = showAddForm st /\
  formState (state_after (fetchOrders env) st) = formState st /\
  List.filter (@is_store_call number) (log_of (fetchOrders env) st)
    = [StoreFetch] /\
  List.filter (@is_alert number) (log_of (fetchOrders env) st) = [].
Proof.
  unfold state_after, log_of; rewrite fetchOrders_run.
  destruct (client_fetch env); repeat split.
Qed.

(* ===================================================================== *)
(** ** Further properties: the cart-items conversion *)
(* ===================================================================== *)

Lemma trimStart_fixed (t : jsstring) :
  (forall c r, t = c :: r -> is_white_space c = false) -> trimStart t = t.
Proof.
  destruct t as [|c r]; intros Hhead; simpl; [reflexivity|].
  rewrite (Hhead c r eq_refl); reflexivity.
Qed.

(** Trimming twice is trimming once. *)
Lemma trim_is_trimmed (s : jsstring) : is_trimmed (trim s).
Proof.
  destruct (trim_spec s) as (pre & post & _ & _ & _ & Hhead & Hlast).
  unfold is_trimmed.
  set (t := trim s) in *.
  unfold trim, trimEnd.
  rewrite (@trimStart_fixed t) by (intros c r E; apply (Hhead c r E)).
  rewrite trimStart_fixed; [apply rev_involutive|].
  intros c r E.
  apply (Hlast (rev r) c).
  rewrite <- (rev_involutive t), E; reflexivity.
Qed.

(** Trimming brings no code unit in. *)
Lemma trim_incl (s : jsstring) (c : code_unit) : In c (trim s) -> In c s.
Proof.
  destruct (trim_spec s) as (pre & post & E & _).
  intros Hin; rewrite E.
  apply in_or_app; right; apply in_or_app; left; exact Hin.
Qed.

Lemma cartItemsArray_comma_free (number : Type) (form : OrderInput number) :
  Forall comma_free (cartItemsArray form).
Proof.
  unfold cartItemsArray.
  destruct (in_cartItems form) as [text|]; [|constructor].
  destruct (truthy text); [|constructor].
  apply Forall_map.
  eapply Forall_impl; [|apply split_pieces_without_sep].
  intros p Hp Hin; apply Hp, trim_incl; exact Hin.
Qed.

Lemma cartItemsArray_trimmed (number : Type) (form : OrderInput number) :
  Forall is_trimmed (cartItemsArray form).
Proof.
  unfold cartItemsArray.
  destruct (in_cartItems form) as [text|]; [|constructor].
  destruct (truthy text); [|constructor].
  apply Forall_map, Forall_forall.
  intros p _; apply trim_is_trimmed.
Qed.

Lemma joined_text_converts_back
  (number : Type) (form : OrderInput number) (arr : list jsstring) :
  in_cartItems form = Some (join (js ", ") arr) ->
  Forall comma_free arr ->
  Forall is_trimmed arr ->
  arr <> [[]] ->
  cartItemsArray form = arr.
Proof.
  intros E Hfree Htrim Hnot.
  unfold cartItemsArray; rewrite E.
  destruct (join (js ", ") arr) as [|c text] eqn:J.
  - apply join_empty in J; [|discriminate].
    destruct J as [J|J]; [rewrite J; reflexivity | contradiction].
  - cbn [truthy]; rewrite <- J.
    rewrite split_trim_join.
    + clear - Htrim.
      induction Htrim as [|x l Hx _ IH]; simpl; [reflexivity|].
      rewrite Hx, IH; reflexivity.
    + intros E'; rewrite E' in J; discriminate.
    + exact Hfree.
Qed.

(** X16.  Whatever the cart-items text is, no element of the converted
    sequence contains a comma and none starts or ends with white space. *)
Theorem converted_items_are_trimmed_and_comma_free
  (number : Type) (form : OrderInput number) :
  Forall comma_free (cartItemsArray form) /\
  Forall is_trimmed (cartItemsArray form) /\
  (forall item,
      In item (cartItemsArray form) ->
      (forall c r, item = c :: r -> is_white_space c = false) /\
      (forall r c, item = r ++ [c] -> is_white_space c = false)).
Proof.
  split; [apply cartItemsArray_comma_free|].
  split; [apply cartItemsArray_trimmed|].
  intros item Hin.
  pose proof (cartItemsArray_trimmed form) as Htrim.
  rewrite Forall_forall in Htrim; specialize (Htrim item Hin).
  unfold is_trimmed in Htrim.
  destruct (trim_spec item) as (pre & post & _ & _ & _ & Hhead & Hlast).
  rewrite Htrim in Hhead, Hlast.
  split; assumption.
Qed.

(** X17.  A cart-items sequence that this page's own conversion produced,
    other than the single empty string, survives a later Edit: joined into
    the form field and converted again it is the same sequence. *)
Theorem converted_items_survive_edit
  (number : Type) (form : OrderInput number) (order : Order number)
  (st : State number) :
  cartItems order = cartItemsArray form ->
  cartItems order <> [[]] ->
  cartItemsArray (formState (state_after (handleEditClick order) st))
    = cartItems order.
Proof.
  intros Hmade Hnot.
  apply joined_text_converts_back.
  - unfold state_after; rewrite handleEditClick_run; reflexivity.
  - rewrite Hmade; apply cartItemsArray_comma_free.
  - rewrite Hmade; apply cartItemsArray_trimmed.
  - exact Hnot.
Qed.

(* ===================================================================== *)
(** ** Further properties: every handler *)
(* ===================================================================== *)

(** X13.  No event makes the page call the store more than once; opening,
    cancelling and editing the form call it not at all. *)
Theorem handler_calls_store_at_most_once
  (number : Type) (env : Env number) (ev : ui_event number)
  (st : State number) :
  (List.length
     (List.filter (@is_store_call number) (log_of (handler_of env ev) st))
   <= 1)%nat /\
  (forall order form,
      ev = ClickAddNew \/ ev = ClickEdit order \/ ev = ClickCancel \/
      ev = ChangeForm form ->
      List.filter (@is_store_call number) (log_of (handler_of env ev) st)
        = []).
Proof.
  split.
  - unfold log_of.
    destruct ev as [| | |order|id| | | |form]; cbn [handler_of].
    + rewrite fetchOrders_run; destruct (client_fetch env); simpl; lia.
    + rewrite fetchOrders_run; destruct (client_fetch env); simpl; lia.
    + simpl; lia.
    + simpl; lia.
    + pose proof (handleDelete_run env id st) as Run; cbv zeta in Run.
      rewrite Run.
      destruct (window_confirm env _); [|simpl; lia].
      destruct (client_delete env id); simpl; lia.
    + simpl; lia.
    + rewrite handleUpdate_run.
      destruct (editingOrder st) as [edited|]; [|simpl; lia].
      destruct (truthy (_id edited)); [|simpl; lia].
      cbv zeta; destruct (client_patch env _ _); simpl; lia.
    + pose proof (handleAddNew_run env st) as Run; cbv zeta in Run.
      rewrite Run.
      destruct (client_create env _); simpl; lia.
    + simpl; lia.
  - intros order form [->|[->|[->| ->]]]; reflexivity.
Qed.

(** X14.  An alert means nothing changed: whenever an event ends with an
    alert in its log, the component state after it is the state before. *)
Theorem alert_means_state_unchanged
  (number : Type) (env : Env number) (ev : ui_event number)
  (st : State number) :
  List.filter (@is_alert number) (log_of (handler_of env ev) st) <> [] ->
  state_after (handler_of env ev) st = st.
Proof.
  unfold log_of, state_after.
  destruct ev as [| | |order|id| | | |form]; cbn [handler_of].
  - rewrite fetchOrders_run; destruct (client_fetch env);
      intros H; destruct (H eq_refl).
  - rewrite fetchOrders_run; destruct (client_fetch env);
      intros H; destruct (H eq_refl).
  - intros H; destruct (H eq_refl).
  - intros H; destruct (H eq_refl).
  - pose proof (handleDelete_run env id st) as Run; cbv zeta in Run.
    rewrite Run.
    destruct (window_confirm env _); [|intros H; destruct (H eq_refl)].
    destruct (client_delete env id); [|reflexivity].
    intros H; destruct (H eq_refl).
  - intros H; destruct (H eq_refl).
  - rewrite handleUpdate_run.
    destruct (editingOrder st) as [edited|]; [|reflexivity].
    destruct (truthy (_id edited)); [|reflexivity].
    cbv zeta; destruct (client_patch env _ _); [|reflexivity].
    intros H; destruct (H eq_refl).
  - pose proof (handleAddNew_run env st) as Run; cbv zeta in Run.
    rewrite Run.
    destruct (client_create env _); [|reflexivity].
    intros H; destruct (H eq_refl).
  - intros H; destruct (H eq_refl).
Qed.

Lemma filter_keeps_distinct_ids
  (number : Type) (p : Order number -> bool) (l : list (Order number)) :
  NoDup (List.map (@_id number) l) ->
  NoDup (List.map (@_id number) (List.filter p l)).
Proof.
  induction l as [|x l IH]; intros Hnd; simpl; [constructor|].
  simpl in Hnd; inversion Hnd as [|? ? Hx Hl]; subst.
  destruct (p x); [|apply IH; exact Hl].
  simpl; constructor; [|apply IH; exact Hl].
  intros Hin; apply Hx.
  apply in_map_iff in Hin as (o & Eo & Ho).
  apply filter_In in Ho as (Ho & _).
  rewrite <- Eo; apply in_map; exact Ho.
Qed.

(** Each atomic handler is what it does up to its [await] followed by its
    continuation on the state of that moment. *)
Lemma fetchOrders_resumes
  (number : Type) (env : Env number) (st : State number) :
  state_after (fetchOrders env) st
  = state_after (fetchOrders_resume (client_fetch env))
      (state_after (setLoading true) st).
Proof.
  unfold state_after; rewrite fetchOrders_run.
  unfold fetchOrders_resume, settled; run_handler.
  destruct (client_fetch env); reflexivity.
Qed.

Lemma handleDelete_resumes
  (number : Type) (env : Env number) (id : jsstring) (st : State number) :
  window_confirm env (js "Are you sure you want to delete this order?")
    = true ->
  state_after (handleDelete env id) st
  = state_after (handleDelete_resume id (client_delete env id)) st.
Proof.
  intros Hyes.
  pose proof (handleDelete_run env id st) as Run; cbv zeta in Run.
  unfold state_after; rewrite Run, Hyes.
  unfold handleDelete_resume, settled; run_handler.
  destruct (client_delete env id); reflexivity.
Qed.

Lemma handleUpdate_resumes
  (number : Type) (env : Env number) (st : State number)
  (edited : Order number) :
  editingOrder st = Some edited ->
  _id edited <> [] ->
  state_after (handleUpdate env) st
  = state_after
      (handleUpdate_resume edited
         (client_patch env (_id edited)
            (updateData_of (formState st) (cartItemsArray (formState st)))))
      st.
Proof.
  intros Hed Hid.
  unfold state_after; rewrite handleUpdate_run, Hed.
  destruct (_id edited) as [|c id] eqn:Eid; [congruence|].
  cbn [truthy]; cbv zeta.
  unfold handleUpdate_resume, handleCancel, settled; run_handler.
  rewrite Eid.
  destruct (client_patch env (c :: id) _); reflexivity.
Qed.

Lemma handleAddNew_resumes
  (number : Type) (env : Env number) (st : State number) :
  state_after (handleAddNew env) st
  = state_after
      (handleAddNew_resume
         (client_create env
            (createDoc_of (formState st) (cartItemsArray (formState st))
                          (createdAt_or_now env (formState st)))))
      st.
Proof.
  pose proof (handleAddNew_run env st) as Run; cbv zeta in Run.
  unfold state_after; rewrite Run.
  unfold handleAddNew_resume, handleCancel, settled; run_handler.
  destruct (client_create env _); reflexivity.
Qed.

(** X18.  Pairwise distinct ids are kept whenever a store answer is
    processed, whatever happened since the call was issued, as long as the
    answer fits the list of that moment: a fetch answer has distinct ids, a
    create answer's id is not in the list, and a patch answer carries the
    id of the record the handler was editing.  A delete answer and every
    rejection keep them without condition. *)
Theorem store_answers_keep_ids_distinct
  (number : Type) (now : State number) :
  NoDup (List.map (@_id number) (orders now)) ->
  (forall answer,
      (forall data,
          answer = Resolved data -> NoDup (List.map (@_id number) data)) ->
      NoDup
        (List.map (@_id number)
           (orders (state_after (fetchOrders_resume answer) now)))) /\
  (forall id answer,
      NoDup
        (List.map (@_id number)
           (orders (state_after (handleDelete_resume id answer) now)))) /\
  (forall edited answer,
      (forall updated, answer = Resolved updated -> _id updated = _id edited) ->
      NoDup
        (List.map (@_id number)
           (orders (state_after (handleUpdate_resume edited answer) now)))) /\
  (forall answer,
      (forall created,
          answer = Resolved created ->
          ~ In (_id created) (List.map (@_id number) (orders now))) ->
      NoDup
        (List.map (@_id number)
           (orders (state_after (handleAddNew_resume answer) now)))).
Proof.
  intros Hnd.
  repeat split.
  - intros [data|] Hfit; [apply (Hfit data eq_refl) | exact Hnd].
  - intros id [[]|]; [|exact Hnd].
    apply filter_keeps_distinct_ids; exact Hnd.
  - intros edited [updated|] Hfit; [|exact Hnd].
    unfold state_after, handleUpdate_resume, handleCancel, settled.
    run_handler.
    rewrite replace_by_id_keeps_ids; [exact Hnd|].
    exact (Hfit updated eq_refl).
  - intros [created|] Hfit; [|exact Hnd].
    unfold state_after, handleAddNew_resume, handleCancel, settled.
    run_handler.
    rewrite map_app; simpl.
    apply NoDup_app; repeat split.
    + exact Hnd.
    + constructor; [intros []|constructor].
    + intros id Hin [<-|[]].
      apply (Hfit created eq_refl); exact Hin.
Qed.

(* ===================================================================== *)
(** ** Further properties: typing into the form and submitting it *)
(* ===================================================================== *)

Lemma handleFormChange_run
  (number : Type) (name : input_name) (value : jsstring)
  (st : State number) :
  handleFormChange name value st =
  (Resolved tt,
   mkState (orders st) (loading st) (editingOrder st) (showAddForm st)
           (with_key name value (formState st)),
   []).
Proof. reflexivity. Qed.

(** X19.  A change of one input is read back under its key, leaves every
    other key of the form as it was, and touches neither the order list,
    the loading flag, the edit target nor the mode flag; it has no effect
    outside the component. *)
Theorem form_change_writes_one_key
  (number : Type) (name : input_name) (value : jsstring)
  (st : State number) :
  key_of name (formState (state_after (handleFormChange name value) st))
    = Some value /\
  (forall other,
      other <> name ->
      key_of other (formState (state_after (handleFormChange name value) st))
        = key_of other (formState st)) /\
  in_id (formState (state_after (handleFormChange name value) st))
    = in_id (formState st) /\
  in_amount (formState (state_after (handleFormChange name value) st))
    = in_amount (formState st) /\
  orders (state_after (handleFormChange name value) st) = orders st /\
  loading (state_after (handleFormChange name value) st) = loading st /\
  editingOrder (state_after (handleFormChange name value) st)
    = editingOrder st /\
  showAddForm (state_after (handleFormChange name value) st)
    = showAddForm st /\
  log_of (handleFormChange name value) st = [].
Proof.
  unfold state_after, log_of; rewrite handleFormChange_run.
  cbn [fst snd formState orders loading editingOrder showAddForm].
  split; [destruct name; reflexivity|].
  split; [|repeat split].
  intros other Hother.
  destruct other, name; try reflexivity; congruence.
Qed.

(** X20.  Changes of two different inputs give the same component state in
    either order, and of two changes of the same input only the later one
    counts. *)
Theorem form_changes_commute_and_override
  (number : Type) (name1 name2 : input_name) (value1 value2 : jsstring)
  (st : State number) :
  (name1 <> name2 ->
   state_after (handleFormChange name2 value2)
     (state_after (handleFormChange name1 value1) st)
   = state_after (handleFormChange name1 value1)
       (state_after (handleFormChange name2 value2) st)) /\
  state_after (handleFormChange name1 value2)
    (state_after (handleFormChange name1 value1) st)
  = state_after (handleFormChange name1 value2) st.
Proof.
  unfold state_after; rewrite !handleFormChange_run.
  cbn [fst snd formState orders loading editingOrder showAddForm].
  split.
  - intros Hdiff; f_equal.
    destruct name1, name2; try reflexivity; congruence.
  - f_equal; destruct name1; reflexivity.
Qed.

Lemma typing_keeps_the_rest
  (number : Type) (changes : list (input_name * jsstring))
  (st : State number) :
  orders (type_into_form changes st) = orders st /\
  loading (type_into_form changes st) = loading st /\
  editingOrder (type_into_form changes st) = editingOrder st /\
  showAddForm (type_into_form changes st) = showAddForm st.
Proof.
  unfold type_into_form.
  revert st; induction changes as [|[name value] changes IH]; intros st;
    simpl; [repeat split|].
  destruct (IH (state_after (handleFormChange name value) st))
    as (Ho & Hl & He & Hs).
  rewrite Ho, Hl, He, Hs; repeat split.
Qed.

Lemma typing_elsewhere_keeps_key
  (number : Type) (name : input_name)
  (changes : list (input_name * jsstring)) (st : State number) :
  Forall (fun change => fst change <> name) changes ->
  key_of name (formState (type_into_form changes st))
    = key_of name (formState st).
Proof.
  unfold type_into_form.
  revert st; induction changes as [|[other value] changes IH]; intros st Hall;
    simpl; [reflexivity|].
  inversion Hall as [|? ? Hother Hrest]; subst; simpl in Hother.
  rewrite (IH _ Hrest).
  unfold state_after; rewrite handleFormChange_run.
  cbn [fst snd formState].
  destruct name, other; try reflexivity; congruence.
Qed.

Lemma reachable_modes_exclusive (number : Type) (st : State number) :
  reachable st -> modes_exclusive st.
Proof.
  induction 1 as [|env ev st _ IH].
  - reflexivity.
  - apply handler_keeps_modes_exclusive; exact IH.
Qed.

(** X21.  In every state the page can reach, submitting the form while the
    create flag is on runs the create handler: the one store call is a
    create, never a patch.  Submitting while a record with a non-empty id
    is being edited patches that id. *)
Theorem submit_follows_the_mode
  (number : Type) (env : Env number) (st : State number) :
  (reachable st ->
   showAddForm st = true ->
   exists doc,
     List.filter (@is_store_call number) (log_of (onSubmit env st) st)
       = [StoreCreate doc]) /\
  (forall edited,
      editingOrder st = Some edited ->
      _id edited <> [] ->
      exists data,
        List.filter (@is_store_call number) (log_of (onSubmit env st) st)
          = [StorePatch (_id edited) data]).
Proof.
  split.
  - intros Hreach Hflag.
    apply reachable_modes_exclusive in Hreach.
    unfold modes_exclusive in Hreach; rewrite Hflag, andb_true_r in Hreach.
    unfold onSubmit; rewrite Hreach.
    pose proof (handleAddNew_run env st) as Run; cbv zeta in Run.
    eexists; unfold log_of; rewrite Run.
    destruct (client_create env _); reflexivity.
  - intros edited Hed Hid.
    unfold onSubmit, isEditing; rewrite Hed.
    eexists; unfold log_of; rewrite handleUpdate_run, Hed.
    destruct (_id edited) as [|c id] eqn:Eid; [congruence|].
    cbn [truthy]; cbv zeta.
    destruct (client_patch env (c :: id) _); reflexivity.
Qed.


(** X23.  After "Add New Order", as long as the user changes other inputs
    only, the payment-method select shows ["creditCard"] and yet the create
    that a submission sends has no [paymentMethod] key; likewise the
    payment-status select shows ["paid"] and no [paymentStatus] is sent. *)
Theorem untouched_selects_are_shown_but_not_sent
  (number : Type) (env : Env number) (st : State number)
  (changes : list (input_name * jsstring)) :
  (Forall (fun change => fst change <> Name_paymentMethod) changes ->
   value_paymentMethod
     (type_into_form changes (state_after handleAddNewClick st))
     = js "creditCard" /\
   exists doc,
     List.filter (@is_store_call number)
       (log_of
          (onSubmit env
             (type_into_form changes (state_after handleAddNewClick st)))
          (type_into_form changes (state_after handleAddNewClick st)))
       = [StoreCreate doc] /\
     doc_paymentMethod doc = None) /\
  (Forall (fun change => fst change <> Name_paymentStatus) changes ->
   value_paymentStatus
     (type_into_form changes (state_after handleAddNewClick st))
     = js "paid" /\
   exists doc,
     List.filter (@is_store_call number)
       (log_of
          (onSubmit env
             (type_into_form changes (state_after handleAddNewClick st)))
          (type_into_form changes (state_after handleAddNewClick st)))
       = [StoreCreate doc] /\
     doc_paymentStatus doc = None).
Proof.
  set (st0 := state_after handleAddNewClick st).
  set (st1 := type_into_form changes st0).
  destruct (typing_keeps_the_rest changes st0) as (_ & _ & Hed & _).
  fold st1 in Hed.
  assert (Hmode : isEditing st1 = false)
    by (unfold isEditing; rewrite Hed; reflexivity).
  pose proof (handleAddNew_run env st1) as Run; cbv zeta in Run.
  split; intros Hall.
  - pose proof (typing_elsewhere_keeps_key st0 Hall) as Hkey.
    fold st1 in Hkey; cbn [key_of] in Hkey.
    change (in_paymentMethod (formState st0)) with (@None jsstring) in Hkey.
    split.
    + unfold value_paymentMethod; rewrite Hkey; reflexivity.
    + unfold onSubmit; rewrite Hmode.
      eexists; split.
      * unfold log_of; rewrite Run.
        destruct (client_create env _); reflexivity.
      * exact Hkey.
  - pose proof (typing_elsewhere_keeps_key st0 Hall) as Hkey.
    fold st1 in Hkey; cbn [key_of] in Hkey.
    change (in_paymentStatus (formState st0)) with (@None jsstring) in Hkey.
    split.
    + unfold value_paymentStatus; rewrite Hkey; reflexivity.
    + unfold onSubmit; rewrite Hmode.
      eexists; split.
      * unfold log_of; rewrite Run.
        destruct (client_create env _); reflexivity.
      * exact Hkey.
Qed.

(* ===================================================================== *)
(** ** The further properties at concrete inputs *)
(* ===================================================================== *)

Lemma failed_create_changes_nothing_witness :
  state_after (handleAddNew Scenario.env_refusing) Sample.st_creating
    = Sample.st_creating /\
  isFormOpen
    (state_after (handleAddNew Scenario.env_refusing) Sample.st_creating)
    = true.
Proof.
  destruct (@failed_create_changes_nothing N Scenario.env_refusing
              Sample.st_creating) as (Hsame & _); [reflexivity|].
  split; [exact Hsame | rewrite Hsame; reflexivity].
Defined.

Lemma successful_create_appends_and_closes_form_witness :
  List.map (@_id N)
    (orders (state_after (handleAddNew Sample.env_ok) Sample.st_creating))
    = [js "a"; js "fresh-id"] /\
  isFormOpen (state_after (handleAddNew Sample.env_ok) Sample.st_creating)
    = false.
Proof.
  destruct (@successful_create_appends_and_closes_form N Sample.env_ok
              Sample.st_creating
              (Sample.created
                 (createDoc_of (formState Sample.st_creating)
                    (cartItemsArray (formState Sample.st_creating))
                    (createdAt_or_now Sample.env_ok
                       (formState Sample.st_creating)))))
    as (Horders & _ & _ & Hclosed & _); [reflexivity|].
  split; [rewrite Horders; reflexivity | exact Hclosed].
Defined.

Lemma failed_delete_changes_nothing_witness :
  state_after (handleDelete Scenario.env_refusing (js "b")) Sample.st_list
    = Sample.st_list /\
  List.filter (@is_alert N)
    (log_of (handleDelete Scenario.env_refusing (js "b")) Sample.st_list)
    = [Alert (js "Failed to delete order")].
Proof.
  destruct (@failed_delete_changes_nothing N Scenario.env_refusing (js "b")
              Sample.st_list) as (Hsame & Hlog); [reflexivity..|].
  split; [exact Hsame | rewrite Hlog; reflexivity].
Defined.

Lemma delete_leaves_no_entry_with_id_witness :
  ~ In (js "a")
      (List.map (@_id N)
         (orders
            (state_after (handleDelete Sample.env_ok (js "a"))
               Sample.st_duplicate_ids))).
Proof.
  exact (proj1 (@delete_leaves_no_entry_with_id N Sample.env_ok (js "a")
                  Sample.st_duplicate_ids eq_refl eq_refl)).
Defined.

Lemma delete_of_absent_id_changes_nothing_witness :
  state_after (handleDelete Sample.env_ok (js "zz")) Sample.st_list
    = Sample.st_list /\
  List.filter (@is_store_call N)
    (log_of (handleDelete Sample.env_ok (js "zz")) Sample.st_list)
    = [StoreDelete (js "zz")].
Proof.
  apply (@delete_of_absent_id_changes_nothing N Sample.env_ok (js "zz")
           Sample.st_list); [reflexivity..|].
  vm_compute; intros [H|[H|[H|[]]]]; discriminate H.
Defined.

Lemma deletes_commute_witness :
  state_after (handleDelete Sample.env_ok (js "c"))
    (state_after (handleDelete Sample.env_ok (js "a")) Sample.st_list)
  = state_after (handleDelete Sample.env_ok (js "a"))
      (state_after (handleDelete Sample.env_ok (js "c")) Sample.st_list).
Proof.
  apply (@deletes_commute N Sample.env_ok (js "a") (js "c") Sample.st_list);
    reflexivity.
Defined.

Lemma update_of_missing_order_changes_no_entry_witness :
  orders
    (state_after (handleUpdate Sample.env_ok)
       Scenario.st_edited_order_deleted)
    = [Sample.order_a; Sample.order_c] /\
  isFormOpen
    (state_after (handleUpdate Sample.env_ok)
       Scenario.st_edited_order_deleted)
    = false.
Proof.
  destruct (@update_of_missing_order_changes_no_entry N Sample.env_ok
              Scenario.st_edited_order_deleted Sample.order_b
              (Sample.persisted (js "b")
                 (updateData_of (formState Scenario.st_edited_order_deleted)
                    (cartItemsArray
                       (formState Scenario.st_edited_order_deleted)))))
    as (Horders & Hclosed & _).
  - reflexivity.
  - by_evaluation.
  - reflexivity.
  - vm_compute; intros [H|[H|[]]]; discriminate H.
  - split; [rewrite Horders; reflexivity | exact Hclosed].
Defined.

Lemma successful_update_closes_form_witness :
  editingOrder (state_after (handleUpdate Sample.env_ok) Sample.st_editing)
    = None /\
  formState (state_after (handleUpdate Sample.env_ok) Sample.st_editing)
    = empty_form.
Proof.
  destruct (@successful_update_closes_form N Sample.env_ok Sample.st_editing
              Sample.order_b
              (Sample.persisted (js "b")
                 (updateData_of (formState Sample.st_editing)
                    (cartItemsArray (formState Sample.st_editing)))))
    as (Hed & _ & Hform & _); [by_evaluation..|].
  split; [exact Hed | exact Hform].
Defined.

Lemma update_keeps_ids_when_store_keeps_id_witness :
  List.map (@_id N)
    (orders (state_after (handleUpdate Sample.env_ok) Sample.st_editing))
  = [js "a"; js "b"; js "c"].
Proof.
  rewrite (@update_keeps_ids_when_store_keeps_id N Sample.env_ok
             Sample.st_editing Sample.order_b
             (Sample.persisted (js "b")
                (updateData_of (formState Sample.st_editing)
                   (cartItemsArray (formState Sample.st_editing)))));
    by_evaluation.
Defined.

Lemma unmodified_edit_submits_order_values_witness :
  value_createdAt (state_after (handleEditClick Sample.order_a) Sample.st_list)
    = js "2024-01-01T10:00" /\
  exists data,
    List.filter (@is_store_call N)
      (log_of (handleUpdate Sample.env_ok)
         (state_after (handleEditClick Sample.order_a) Sample.st_list))
      = [StorePatch (js "a") data] /\
    upd_createdAt data = Some (js "2024-01-01T10:00:00.000Z").
Proof.
  destruct (@unmodified_edit_submits_order_values N Sample.env_ok
              Sample.order_a Sample.st_list)
    as (Hshown & data & Hlog & Hfields); [by_evaluation|].
  split; [rewrite Hshown; reflexivity|].
  exists data; split; [exact Hlog|].
  decompose [and] Hfields; assumption.
Defined.

Lemma cancel_undoes_opening_the_form_witness :
  state_after handleCancel
    (state_after (handleEditClick Sample.order_b) Sample.st_list)
    = Sample.st_list /\
  state_after handleCancel (state_after handleAddNewClick Sample.st_list)
    = Sample.st_list.
Proof.
  apply (@cancel_undoes_opening_the_form N Sample.order_b Sample.st_list);
    reflexivity.
Defined.

Lemma handler_calls_store_at_most_once_witness :
  List.filter (@is_store_call N)
    (log_of (handler_of Sample.env_ok (ClickEdit Sample.order_a))
       Sample.st_list)
  = [].
Proof.
  apply (proj2 (@handler_calls_store_at_most_once N Sample.env_ok
                  (ClickEdit Sample.order_a) Sample.st_list)
               Sample.order_a empty_form).
  right; left; reflexivity.
Defined.

Lemma alert_means_state_unchanged_witness :
  state_after (handler_of Scenario.env_refusing SubmitUpdate)
    Sample.st_editing
  = Sample.st_editing.
Proof.
  apply (@alert_means_state_unchanged N Scenario.env_refusing SubmitUpdate
           Sample.st_editing).
  by_evaluation.
Defined.

Lemma converted_items_survive_edit_witness :
  cartItemsArray
    (formState
       (state_after
          (handleEditClick
             (Sample.order_with "g"
                (cartItemsArray (formState Sample.st_editing))))
          Sample.st_list))
  = [js "pen"; js "ink"; js "paper"].
Proof.
  rewrite (@converted_items_survive_edit N (formState Sample.st_editing)
             (Sample.order_with "g"
                (cartItemsArray (formState Sample.st_editing)))
             Sample.st_list);
    by_evaluation.
Defined.

Lemma store_answers_keep_ids_distinct_witness :
  List.map (@_id N)
    (orders
       (state_after (handleAddNew_resume (Resolved Scenario.order_fresh))
          Sample.st_list))
    = [js "a"; js "b"; js "c"; js "fresh-id"] /\
  NoDup
    (List.map (@_id N)
       (orders
          (state_after (handleAddNew_resume (Resolved Scenario.order_fresh))
             Sample.st_list))).
Proof.
  split; [reflexivity|].
  destruct (@store_answers_keep_ids_distinct N Sample.st_list)
    as (_ & _ & _ & Hcreate).
  - repeat constructor; vm_compute; intuition discriminate.
  - apply Hcreate.
    intros created E; injection E as <-.
    vm_compute; intros [H|[H|[H|[]]]]; discriminate H.
Defined.

(** A create and a refresh in flight together: the fetch is answered
    first, with the new order already in it, and then the create's answer
    is processed on that list.  The new order is in the list twice. *)
Example create_then_refresh_race :
  List.map (@_id N)
    (orders
       (state_after (handleAddNew_resume (Resolved Scenario.order_fresh))
          (state_after
             (fetchOrders_resume
                (Resolved [Sample.order_a; Scenario.order_fresh]))
             (state_after (setLoading true) Sample.st_creating))))
  = [js "a"; js "fresh-id"; js "fresh-id"].
Proof. reflexivity. Qed.

Lemma form_change_writes_one_key_witness :
  key_of Name_cartItems
    (formState
       (state_after (handleFormChange Name_cartItems (js "nib, cap"))
          Sample.st_editing))
    = Some (js "nib, cap") /\
  key_of Name_createdAt
    (formState
       (state_after (handleFormChange Name_cartItems (js "nib, cap"))
          Sample.st_editing))
    = Some (js "2024-01-01T10:00").
Proof.
  destruct (@form_change_writes_one_key N Name_cartItems (js "nib, cap")
              Sample.st_editing) as (Hread & Hframe & _).
  split; [exact Hread|].
  rewrite (Hframe Name_createdAt) by discriminate; reflexivity.
Defined.

Lemma form_changes_commute_and_override_witness :
  state_after (handleFormChange Name_email (js "grace@example.org"))
    (state_after (handleFormChange Name_fullName (js "Grace Hopper"))
       Scenario.st_add_clicked)
  = state_after (handleFormChange Name_fullName (js "Grace Hopper"))
      (state_after (handleFormChange Name_email (js "grace@example.org"))
         Scenario.st_add_clicked).
Proof.
  apply (proj1 (@form_changes_commute_and_override N Name_fullName Name_email
                  (js "Grace Hopper") (js "grace@example.org")
                  Scenario.st_add_clicked)).
  discriminate.
Defined.

Lemma scenario_add_clicked_reachable : reachable Scenario.st_add_clicked.
Proof.
  unfold Scenario.st_add_clicked.
  repeat apply reach_event; apply reach_initial.
Qed.

Lemma submit_follows_the_mode_witness :
  (exists doc,
      List.filter (@is_store_call N)
        (log_of (onSubmit Sample.env_ok Scenario.st_add_clicked)
           Scenario.st_add_clicked)
      = [StoreCreate doc]) /\
  (exists data,
      List.filter (@is_store_call N)
        (log_of (onSubmit Sample.env_ok Sample.st_editing) Sample.st_editing)
      = [StorePatch (js "b") data]).
Proof.
  split.
  - apply (proj1 (@submit_follows_the_mode N Sample.env_ok
                    Scenario.st_add_clicked));
      [apply scenario_add_clicked_reachable | reflexivity].
  - apply (proj2 (@submit_follows_the_mode N Sample.env_ok Sample.st_editing)
                 Sample.order_b); by_evaluation.
Defined.


Lemma untouched_selects_are_shown_but_not_sent_witness :
  value_paymentMethod
    (type_into_form Scenario.typed_order
       (state_after handleAddNewClick Sample.st_list))
    = js "creditCard" /\
  exists doc,
    List.filter (@is_store_call N)
      (log_of
         (onSubmit Sample.env_ok
            (type_into_form Scenario.typed_order
               (state_after handleAddNewClick Sample.st_list)))
         (type_into_form Scenario.typed_order
            (state_after handleAddNewClick Sample.st_list)))
      = [StoreCreate doc] /\
    doc_paymentMethod doc = None.
Proof.
  apply (proj1 (@untouched_selects_are_shown_but_not_sent N Sample.env_ok
                  Sample.st_list Scenario.typed_order)).
  repeat constructor; discriminate.
Defined.
